(** * tk_chill_shop: the demo shop back end (server.js), embedded in Rocq

    The repository holds two copies of the Express server: [src/server.js]
    and a second, unnamed file that differs in its middleware set-up and in
    the logout handler only.  Everything that is the same in both copies is
    embedded once; the two logout handlers live in the modules [ServerJs]
    and [Part000] below.

    Layout: JavaScript values and the few operators the handlers use;
    request bodies as [JSON.parse] gives them, and what [JSON.stringify]
    writes of them; the users.json helpers as a small state-and-exception
    monad over the file; [getOrCreateUserRecord]; the route handlers,
    /api/me and the strategies' verify callback; the vocabulary of the
    properties; the properties, each claim of the specification under its
    number; and the theorems applied to concrete requests.

    What is outside: passport and express-session (how a session is kept is
    theirs; their callbacks' errors are inputs here), the OAuth routes, a
    disk that fails, a users.json that holds valid JSON of another shape
    than an array of records, numbers with a fractional part, and two
    requests running at once. *)

From Stdlib Require Import ZArith NArith String Ascii List Bool Lia DecimalString.
From stdpp Require Import base list option.

Open Scope string_scope.
Open Scope list_scope.
Open Scope Z_scope.

(** ** JavaScript values

    Session identities, the contents of users.json and the bodies of the
    responses are values that [JSON.stringify] wrote and [JSON.parse] read
    back, so a defined value is a JSON value; the JavaScript [undefined] (an
    absent property) is [None].  A number is an integer, as a double holds
    every integer up to 2^53 in magnitude; numbers with a fractional part
    are outside the model.  The two kinds of number that [JSON.parse] can
    make of a request text and [JSON.stringify] never writes, the infinities
    and negative zero, are values of a request body only ([parsed],
    below). *)

#[local] Set Warnings "-register-all".

Inductive json : Type :=
| JNull
| JBool (b : bool)
| JNum (n : Z)
| JStr (s : string)
| JArr (items : list json)
| JObj (props : list (string * json)).

Definition jsval : Type := option json.

Definition jstr (s : string) : jsval := Some (JStr s).

(** ToBoolean: [undefined], [null], [false], [0] and [""] are falsy. *)
Definition truthy (v : jsval) : bool :=
  match v with
  | None => false
  | Some JNull => false
  | Some (JBool b) => b
  | Some (JNum n) => negb (n =? 0)
  | Some (JStr s) => negb (String.eqb s "")
  | Some (JArr _) => true
  | Some (JObj _) => true
  end.

(** [a || b] and [a && b] on values. *)
Definition js_or (a b : jsval) : jsval := if truthy a then a else b.
Definition js_and (a b : jsval) : jsval := if truthy a then b else a.

Infix "<||>" := js_or (at level 50, left associativity).
Infix "<&&>" := js_and (at level 40, left associativity).

(** [a === b].  Two arrays or two objects are the same only when they are
    the same object; every comparison in the handlers is between a value of
    the freshly parsed users.json and a value that came with the request, so
    such a pair is never the same object. *)
Definition strict_eq (a b : jsval) : bool :=
  match a, b with
  | None, None => true
  | Some JNull, Some JNull => true
  | Some (JBool x), Some (JBool y) => Bool.eqb x y
  | Some (JNum x), Some (JNum y) => x =? y
  | Some (JStr x), Some (JStr y) => String.eqb x y
  | _, _ => false
  end.

(** The value of the member [k] among the members [ps] of an object, which
    come in the order of the JSON text; as in [JSON.parse], when a name is
    there twice the last one counts. *)
Fixpoint assoc {A : Type} (k : string) (ps : list (string * A)) : option A :=
  match ps with
  | [] => None
  | (k', v) :: rest =>
      match assoc k rest with
      | Some later => Some later
      | None => if String.eqb k k' then Some v else None
      end
  end.

(** [v.k] for a named property.  Only objects carry the names the handlers
    read.  Reading a property of [undefined] or [null] throws in JavaScript;
    every use of [get] below sits under the source's [&&] guards, and the
    one unguarded read ([profile.displayName]) has its throw written out. *)
Definition get (v : jsval) (k : string) : jsval :=
  match v with
  | Some (JObj ps) => assoc k ps
  | _ => None
  end.

(** [v[0]]. *)
Definition elem0 (v : jsval) : jsval :=
  match v with
  | Some (JArr items) => head items
  | Some (JStr (String c _)) => Some (JStr (String c EmptyString))
  | Some (JObj ps) => assoc "0" ps
  | _ => None
  end.

(** [v.length]. *)
Definition length_of (v : jsval) : jsval :=
  match v with
  | Some (JArr items) => Some (JNum (Z.of_nat (List.length items)))
  | Some (JStr s) => Some (JNum (Z.of_nat (String.length s)))
  | Some (JObj ps) => assoc "length" ps
  | _ => None
  end.

Definition isArray (v : jsval) : bool :=
  match v with
  | Some (JArr _) => true
  | _ => false
  end.

Definition nullish (v : jsval) : bool :=
  match v with
  | None | Some JNull => true
  | _ => false
  end.

(** [n.toString()] for a time stamp: [Date.now()] is a count of
    milliseconds, written in decimal. *)
Definition Number_toString (n : N) : string := NilZero.string_of_uint (N.to_uint n).

Fixpoint join (sep : string) (parts : list string) : string :=
  match parts with
  | [] => ""
  | [p] => p
  | p :: rest => (p ++ sep ++ join sep rest)%string
  end.

(** [String(v)] on a defined value: an integer prints in decimal, as
    JavaScript prints the integers below 10^21; an array joins its elements
    with commas ([null] printing as nothing); an object prints as
    [[object Object]].  An object that has a member of its own named
    [toString] makes [String] throw instead: ids of that kind are outside
    the model. *)
Fixpoint toString (v : json) : string :=
  match v with
  | JNull => "null"
  | JBool true => "true"
  | JBool false => "false"
  | JNum n => NilZero.string_of_int (Z.to_int n)
  | JStr s => s
  | JArr items =>
      join "," (map (fun x => match x with JNull => "" | _ => toString x end) items)
  | JObj _ => "[object Object]"
  end.

Definition String_ (v : jsval) : string :=
  match v with
  | None => "undefined"
  | Some j => toString j
  end.

(** ** Request bodies

    [express.json()] hands a handler what [JSON.parse] makes of the request
    text.  That can hold numbers that no [JSON.stringify] writes: negative
    zero (the literal [-0]) and the infinities (a literal beyond the range
    of a double, such as [1e999]).  POST /api/cart stores a part of its body
    without looking into it, so its body is modelled with them.  Register
    and login read their bodies field by field, as a name, an email and a
    password: their bodies are values as above. *)

Inductive parsed : Type :=
| PNull
| PBool (b : bool)
| PNum (n : Z)
| PNegZero
| PInfinity (negative : bool)
| PStr (s : string)
| PArr (items : list parsed)
| PObj (props : list (string * parsed)).

Module Parsed.

(** [v.k] and [Array.isArray(v)] on a body. *)
Definition get (v : option parsed) (k : string) : option parsed :=
  match v with
  | Some (PObj ps) => assoc k ps
  | _ => None
  end.

Definition isArray (v : option parsed) : bool :=
  match v with
  | Some (PArr _) => true
  | _ => false
  end.

End Parsed.

(** What [JSON.stringify] writes of a value, as [JSON.parse] reads it back
    from the file, from the session or from a response: an infinity is
    written as [null], negative zero as [0], and everything else as it
    is. *)
Fixpoint JSON_stringify (v : parsed) : json :=
  match v with
  | PNull => JNull
  | PBool b => JBool b
  | PNum n => JNum n
  | PNegZero => JNum 0
  | PInfinity _ => JNull
  | PStr s => JStr s
  | PArr items => JArr (map JSON_stringify items)
  | PObj props => JObj (map (fun p => let '(k, x) := p in (k, JSON_stringify x)) props)
  end.

(** ** The user store *)

(** One element of the users.json array.  A field that the object lacks is
    [undefined]. *)
Record UserRecord : Type := mkUser {
  id : jsval;
  name : jsval;
  email : jsval;
  password : jsval;
  cart : jsval
}.

Definition set_cart (c : jsval) (u : UserRecord) : UserRecord :=
  {| id := id u; name := name u; email := email u; password := password u; cart := c |}.

Definition field (k : string) (v : jsval) : list (string * json) :=
  match v with
  | Some j => [(k, j)]
  | None => []
  end.

(** The record as the JSON object it is (in a response, in the session). *)
Definition json_of_user (u : UserRecord) : json :=
  JObj (field "id" (id u) ++ field "name" (name u) ++ field "email" (email u)
        ++ field "password" (password u) ++ field "cart" (cart u)).

(** The text of USERS_FILE, by what [JSON.parse] makes of it: nothing at
    all, text that does not parse, or an array of records, which is what
    the server itself writes.  The records are values that [JSON.stringify]
    has written, and [JSON.parse] reads those back as they are.  Text that
    parses to something else (an object, an array that holds [null]) is
    outside the model: on such a file the handlers end in their [catch]. *)
Inductive file_text : Type :=
| EmptyText
| InvalidJson
| UsersJson (us : list UserRecord).

(** The server's state: users.json (absent before the first access) and the
    number of [fs.writeFile] calls made so far.  The fs calls work on this
    state; the only failure they have is the missing file. *)
Record world : Type := mkWorld {
  users_file : option file_text;
  writes : nat
}.

Inductive result (A : Type) : Type :=
| Ok (a : A)
| Throw (e : string).
Arguments Ok {A} a.
Arguments Throw {A} e.

Definition M (A : Type) : Type := world -> result A * world.

Definition ret {A} (a : A) : M A := fun w => (Ok a, w).

Definition throw {A} (e : string) : M A := fun w => (Throw e, w).

Definition bind {A B} (m : M A) (k : A -> M B) : M B :=
  fun w =>
    match m w with
    | (Ok a, w') => k a w'
    | (Throw e, w') => (Throw e, w')
    end.

Definition try_catch {A} (m : M A) (handler : string -> M A) : M A :=
  fun w =>
    match m w with
    | (Ok a, w') => (Ok a, w')
    | (Throw e, w') => handler e w'
    end.

Notation "'let!' x ':=' m 'in' k" := (bind m (fun x => k))
  (at level 10, x name, m at level 100, k at level 200).
Notation "m ';;' k" := (bind m (fun _ => k))
  (at level 100, k at level 200, right associativity).

(** *** users.json helpers *)

Definition fs_access : M unit :=
  fun w =>
    match users_file w with
    | Some _ => (Ok tt, w)
    | None => (Throw "ENOENT", w)
    end.

Definition fs_writeFile (t : file_text) : M unit :=
  fun w => (Ok tt, {| users_file := Some t; writes := S (writes w) |}).

Definition fs_readFile : M file_text :=
  fun w =>
    match users_file w with
    | Some t => (Ok t, w)
    | None => (Throw "ENOENT", w)
    end.

Definition ensureUsersFile : M unit :=
  try_catch fs_access (fun _ => fs_writeFile (UsersJson [])).

Definition JSON_parse (t : file_text) : result (list UserRecord) :=
  match t with
  | UsersJson us => Ok us
  | _ => Throw "SyntaxError"
  end.

(** [JSON.parse(txt || '[]')], with [[]] for text that does not parse. *)
Definition readUsers : M (list UserRecord) :=
  ensureUsersFile ;;
  let! txt := fs_readFile in
  ret (match JSON_parse (match txt with EmptyText => UsersJson [] | _ => txt end) with
       | Ok us => us
       | Throw _ => []
       end).

Definition writeUsers (users : list UserRecord) : M unit :=
  fs_writeFile (UsersJson users).

(** [users.findIndex(p)]: the first index whose element passes, or -1. *)
Fixpoint findIndex_from (p : UserRecord -> bool) (l : list UserRecord) (i : Z) : Z :=
  match l with
  | [] => -1
  | u :: rest => if p u then i else findIndex_from p rest (i + 1)
  end.

Definition findIndex (p : UserRecord -> bool) (l : list UserRecord) : Z :=
  findIndex_from p l 0.

(** [users[i]]: [undefined] out of range. *)
Definition at_index (l : list UserRecord) (i : Z) : option UserRecord :=
  if i <? 0 then None else l !! Z.to_nat i.

(** ** Identity-to-record resolution *)

(** What [getOrCreateUserRecord] returns: [{ user, users, index }]. *)
Record Resolved : Type := mkResolved {
  user : option UserRecord;
  users : list UserRecord;
  index : Z
}.

(** [sessionUser && sessionUser.profile ? sessionUser.profile : sessionUser] *)
Definition profile_of (sessionUser : jsval) : jsval :=
  if truthy (sessionUser <&&> get sessionUser "profile")
  then get sessionUser "profile"
  else sessionUser.

(** [(profile && ((profile.emails && profile.emails[0] &&
      profile.emails[0].value) || profile.email)) || ''] *)
Definition email_of (profile : jsval) : jsval :=
  profile <&&> ((get profile "emails" <&&> elem0 (get profile "emails")
                 <&&> get (elem0 (get profile "emails")) "value")
                <||> get profile "email")
  <||> jstr "".

(** [(profile && (profile.id || profile._id)) || ''] *)
Definition profileId_of (profile : jsval) : jsval :=
  profile <&&> (get profile "id" <||> get profile "_id") <||> jstr "".

(** The search for [idx]: by email when there is one, then, if that found
    nothing, by stringified id when there is one. *)
Definition lookupIndex (mail profileId : jsval) (users : list UserRecord) : Z :=
  let idx := -1 in
  let idx := if truthy mail
             then findIndex (fun u => strict_eq (email u) mail) users
             else idx in
  let idx := if (idx =? -1) && truthy profileId
             then findIndex (fun u => String.eqb (String_ (id u)) (String_ profileId)) users
             else idx in
  idx.

(** The record made for an identity that matches none; [now] is [Date.now()]. *)
Definition newRec (now : N) (profile : jsval) : UserRecord :=
  let mail := email_of profile in
  let profileId := profileId_of profile in
  {| id := jstr (if truthy profileId then String_ profileId else Number_toString now);
     name := get profile "displayName" <||> get profile "name"
             <||> get profile "username" <||> jstr "User";
     email := mail <||> jstr "";
     password := jstr "";
     cart := Some (JArr []) |}.

Definition getOrCreateUserRecord (now : N) (sessionUser : jsval) : M Resolved :=
  let! users := readUsers in
  let profile := profile_of sessionUser in
  let idx := lookupIndex (email_of profile) (profileId_of profile) users in
  if idx =? -1 then
    if nullish profile then throw "TypeError" else
    let users := users ++ [newRec now profile] in
    writeUsers users ;;
    ret {| user := Some (newRec now profile);
           users := users;
           index := Z.of_nat (List.length users) - 1 |}
  else
    ret {| user := at_index users idx; users := users; index := idx |}.

(** ** Route handlers *)

(** A response: the status, the JSON body, and the names of the cookies
    that [res.clearCookie] was called for. *)
Record response : Type := mkResponse {
  status : Z;
  payload : json;
  cleared : list string
}.

Definition res_json (st : Z) (j : json) : response :=
  {| status := st; payload := j; cleared := [] |}.

Definition failure (st : Z) (message : string) : response :=
  res_json st (JObj [("ok", JBool false); ("message", JStr message)]).

Definition clearCookie (cookie : string) (r : response) : response :=
  {| status := status r; payload := payload r; cleared := cookie :: cleared r |}.

(** The identity that register and login hand to [req.login]. *)
Definition local_identity (u : UserRecord) : json :=
  JObj [("provider", JStr "local"); ("profile", json_of_user u)].

(** [req.login(identity, cb)] is passport's; [login_error] is what it
    reports to the callback. *)
Definition req_login {A} (login_error : option string) (identity : json)
    (cb : option string -> A) : A :=
  cb login_error.

(** The record that a registration makes of the body's [name], [email]
    and [password]; [now] is [Date.now()]. *)
Definition newUser (now : N) (body : json) : UserRecord :=
  {| id := jstr (Number_toString now);
     name := get (Some body) "name";
     email := get (Some body) "email";
     password := get (Some body) "password";
     cart := Some (JArr []) |}.

Definition register (login_error : option string) (now : N) (body : json) : M response :=
  try_catch
    (let name_ := get (Some body) "name" in
     let mail := get (Some body) "email" in
     let pass := get (Some body) "password" in
     if negb (truthy name_) || negb (truthy mail) || negb (truthy pass)
     then ret (failure 400 "Thiếu thông tin")
     else
       let! users := readUsers in
       if existsb (fun u => strict_eq (email u) mail) users
       then ret (failure 409 "Email đã tồn tại")
       else
         let users := users ++ [newUser now body] in
         writeUsers users ;;
         ret (req_login login_error (local_identity (newUser now body)) (fun err =>
                match err with
                | Some _ => failure 500 "Lỗi khi đăng nhập sau đăng ký"
                | None => res_json 200 (JObj [("ok", JBool true);
                                              ("user", json_of_user (newUser now body))])
                end)))
    (fun _ => ret (failure 500 "Server error")).

Definition login (login_error : option string) (body : json) : M response :=
  try_catch
    (let mail := get (Some body) "email" in
     let pass := get (Some body) "password" in
     if negb (truthy mail) || negb (truthy pass)
     then ret (failure 400 "Thiếu thông tin")
     else
       let! users := readUsers in
       match find (fun u => strict_eq (email u) mail && strict_eq (password u) pass) users with
       | None => ret (failure 401 "Email hoặc mật khẩu không đúng")
       | Some u =>
           ret (req_login login_error (local_identity u) (fun err =>
                  match err with
                  | Some _ => failure 500 "Lỗi khi đăng nhập"
                  | None => res_json 200 (JObj [("ok", JBool true); ("user", json_of_user u)])
                  end))
       end)
    (fun _ => ret (failure 500 "Server error")).

(** GET /api/cart; [req_user] is [req.user]. *)
Definition getCart (now : N) (req_user : jsval) : M response :=
  if negb (truthy req_user) then ret (failure 401 "Chưa đăng nhập") else
  try_catch
    (let! r := getOrCreateUserRecord now req_user in
     match user r with
     | None => throw "TypeError"
     | Some u =>
         ret (res_json 200 (JObj (("ok", JBool true)
                                  :: field "cart" (cart u <||> Some (JArr [])))))
     end)
    (fun _ => ret (failure 500 "Lỗi server")).

(** POST /api/cart.  [users[index].cart = newCart] puts the body's array
    into the record as it came; [writeUsers] and [res.json] then pass it
    through [JSON.stringify], so the file and the response hold what that
    writes of it. *)
Definition postCart (now : N) (req_user : jsval) (body : parsed) : M response :=
  if negb (truthy req_user) then ret (failure 401 "Chưa đăng nhập") else
  try_catch
    (let newCart := if Parsed.isArray (Parsed.get (Some body) "cart")
                    then Parsed.get (Some body) "cart"
                    else Some (PArr []) in
     let! r := getOrCreateUserRecord now req_user in
     match at_index (users r) (index r) with
     | None => throw "TypeError"
     | Some u =>
         let written := option_map JSON_stringify newCart in
         let users := <[Z.to_nat (index r) := set_cart written u]> (users r) in
         writeUsers users ;;
         ret (res_json 200 (JObj (("ok", JBool true) :: field "cart" written)))
     end)
    (fun _ => ret (failure 500 "Lỗi server")).

(** POST /api/checkout *)
Definition checkout (now : N) (req_user : jsval) : M response :=
  if negb (truthy req_user) then ret (failure 401 "Chưa đăng nhập") else
  try_catch
    (let! r := getOrCreateUserRecord now req_user in
     match at_index (users r) (index r) with
     | None => throw "TypeError"
     | Some u =>
         let items := cart u <||> Some (JArr []) in
         if negb (truthy (length_of items))
         then ret (failure 400 "Giỏ hàng trống")
         else
           let orderId := ("ORD-" ++ Number_toString now)%string in
           let users := <[Z.to_nat (index r) := set_cart (Some (JArr [])) u]> (users r) in
           writeUsers users ;;
           ret (res_json 200 (JObj [("ok", JBool true);
                                    ("orderId", JStr orderId);
                                    ("message", JStr "Thanh toán thành công (mô phỏng)")]))
     end)
    (fun _ => ret (failure 500 "Lỗi server")).

(** *** Logout *)

(** What the session layer does on a logout request: the error, if any,
    that [req.logout] reports; whether [req.session] is there afterwards;
    the error, if any, that [req.session.destroy] reports. *)
Record session_layer : Type := mkSessionLayer {
  logout_error : option string;
  has_session : bool;
  destroy_error : option string
}.

(** A logout handler answers, hands an error to [next], or breaks on an
    exception that nothing catches. *)
Inductive outcome : Type :=
| Responded (r : response)
| Next (err : string)
| Uncaught (e : string).

Definition cookie_cleared (cookie : string) (o : outcome) : bool :=
  match o with
  | Responded r => existsb (String.eqb cookie) (cleared r)
  | _ => false
  end.

Definition status_of (o : outcome) : option Z :=
  match o with
  | Responded r => Some (status r)
  | _ => None
  end.

Module ServerJs.

(** src/server.js, POST /api/logout *)
Definition logout (s : session_layer) : outcome :=
  match logout_error s with
  | Some err => Next err
  | None =>
      if has_session s
      then (fun _ : option string => Responded (res_json 200 (JObj [("ok", JBool true)])))
             (destroy_error s)
      else Uncaught "TypeError"
  end.

End ServerJs.

Module Part000.

(** [process.env.SESSION_NAME || 'connect.sid'] *)
Definition sessionName (SESSION_NAME : option string) : string :=
  match SESSION_NAME with
  | Some s => if String.eqb s "" then "connect.sid" else s
  | None => "connect.sid"
  end.

(** src/unnamed/part_000, POST /api/logout *)
Definition logout (SESSION_NAME : option string) (s : session_layer) : outcome :=
  match logout_error s with
  | Some err => Next err
  | None =>
      if has_session s
      then
        match destroy_error s with
        | Some _ =>
            Responded (clearCookie (sessionName SESSION_NAME)
                         (failure 500 "Không thể huỷ session"))
        | None =>
            Responded (clearCookie (sessionName SESSION_NAME)
                         (res_json 200 (JObj [("ok", JBool true)])))
        end
      else
        Responded (clearCookie (sessionName SESSION_NAME)
                     (res_json 200 (JObj [("ok", JBool true)])))
  end.

End Part000.

(** *** The current user *)

(** GET /api/me.  The handler is synchronous; an exception in it (reading
    [profile.id] when [req.user] has no profile) is caught by the router
    and handed to [next].  [res.json] leaves out a member whose value is
    [undefined]. *)
Definition me (req_user : jsval) : outcome :=
  if negb (truthy req_user)
  then Responded (res_json 200 (JObj [("loggedIn", JBool false)]))
  else
    let provider := get req_user "provider" in
    let profile := get req_user "profile" in
    if nullish profile then Next "TypeError" else
    let userInfo :=
      JObj (field "provider" provider
            ++ field "id" (get profile "id" <||> jstr "")
            ++ field "name" (get profile "displayName" <||> get profile "name"
                             <||> get profile "username" <||> jstr "")
            ++ field "email" ((get profile "emails" <&&> elem0 (get profile "emails")
                               <&&> get (elem0 (get profile "emails")) "value")
                              <||> get profile "email" <||> jstr "")
            ++ field "avatar" ((get profile "photos" <&&> elem0 (get profile "photos")
                                <&&> get (elem0 (get profile "photos")) "value")
                               <||> Some JNull)
            ++ field "raw" profile) in
    Responded (res_json 200 (JObj [("loggedIn", JBool true); ("user", userInfo)])).

(** *** OAuth identities *)

(** The verify callback of a strategy,
    [(accessToken, refreshToken, profile, done) =>
       done(null, { provider: 'google', profile, accessToken })],
    written once for the three providers: what it hands to [done]. *)
Definition verify (provider : string) (accessToken refreshToken profile : jsval) : json :=
  JObj (("provider", JStr provider) :: field "profile" profile
        ++ field "accessToken" accessToken).

(** * Vocabulary of the properties *)

(** ** The file as the handlers see it *)

(** The array that [readUsers] returns in a given state. *)
Definition stored (w : world) : list UserRecord :=
  match users_file w with
  | Some (UsersJson us) => us
  | _ => []
  end.

(** The state that [ensureUsersFile] leaves: an absent file is created. *)
Definition ensured (w : world) : world :=
  match users_file w with
  | Some _ => w
  | None => {| users_file := Some (UsersJson []); writes := S (writes w) |}
  end.

(** The state after a record was made for an identity that matched none. *)
Definition created (now : N) (su : jsval) (w : world) : world :=
  {| users_file := Some (UsersJson (stored w ++ [newRec now (profile_of su)]));
     writes := S (writes (ensured w)) |}.

(** [users[index].cart = c] followed by [writeUsers(users)]. *)
Definition cart_written (c : jsval) (r : Resolved) (u : UserRecord) (w1 : world) : world :=
  {| users_file := Some (UsersJson (<[Z.to_nat (index r) := set_cart c u]> (users r)));
     writes := S (writes w1) |}.

(** ** Searching the array *)

(** [i] is the first position of [l] whose element passes [p]. *)
Definition first_match (p : UserRecord -> bool) (l : list UserRecord) (i : nat) : Prop :=
  (exists u, l !! i = Some u /\ p u = true) /\
  (forall j v, (j < i)%nat -> l !! j = Some v -> p v = false).

(** The two tests of the search, as the source's arrow functions. *)
Definition by_email (mail : jsval) : UserRecord -> bool :=
  fun u => strict_eq (email u) mail.

Definition by_id (profileId : jsval) : UserRecord -> bool :=
  fun u => String.eqb (String_ (id u)) (String_ profileId).

(** No record of [us] is found by email: there is no email to look for,
    or no record carries it.  Likewise by id. *)
Definition no_email_match (mail : jsval) (us : list UserRecord) : Prop :=
  truthy mail = false \/ forall u, In u us -> by_email mail u = false.

Definition no_id_match (profileId : jsval) (us : list UserRecord) : Prop :=
  truthy profileId = false \/ forall u, In u us -> by_id profileId u = false.

(** The index that the search gives an identity in an array of records. *)
Definition lookup_in (su : jsval) (us : list UserRecord) : Z :=
  lookupIndex (email_of (profile_of su)) (profileId_of (profile_of su)) us.

(** A record that the search can stop at: it carries the identity's email,
    or its stringified id. *)
Definition identifies (su : jsval) (u : UserRecord) : bool :=
  (truthy (email_of (profile_of su)) && by_email (email_of (profile_of su)) u)
  || (truthy (profileId_of (profile_of su)) && by_id (profileId_of (profile_of su)) u).

(** A value that is no array and no object. *)
Definition primitive (v : jsval) : bool :=
  match v with
  | Some (JArr _) | Some (JObj _) => false
  | _ => true
  end.

(** An identity that a later request can be recognised by: its profile
    carries an id, or an email that is a string (or another primitive). *)
Definition keyed (su : jsval) : bool :=
  (truthy (email_of (profile_of su)) && primitive (email_of (profile_of su)))
  || truthy (profileId_of (profile_of su)).

(** ** The extraction, as the specification words it

    The email comes from [profile.emails[0].value] or else from
    [profile.email]; the id from [profile.id] (or [profile._id]); the name
    from [displayName], [name] or [username], and is "User" when the profile
    has none of them.  These follow the specification's words and are
    written on the data itself, not with the operators of the embedding;
    they are proved equal to the source's expressions ([email_of_eq],
    [profileId_of_eq], [newRec_name]). *)

(** [emails[0].value], read off the profile: the [value] member of the
    first element when [emails] is an array, or of the member named [0]
    when it is an object; nothing otherwise. *)
Definition first_email_value (profile : jsval) : jsval :=
  match get profile "emails" with
  | Some (JArr (JObj members :: _)) => assoc "value" members
  | Some (JObj members) =>
      match assoc "0" members with
      | Some (JObj inner) => assoc "value" inner
      | _ => None
      end
  | _ => None
  end.

Definition identity_email (profile : jsval) : jsval :=
  let first := first_email_value profile in
  if truthy first then first
  else if truthy (get profile "email") then get profile "email"
  else jstr "".

Definition identity_id (profile : jsval) : jsval :=
  if truthy (get profile "id") then get profile "id"
  else if truthy (get profile "_id") then get profile "_id"
  else jstr "".

Definition display_name (profile : jsval) : jsval :=
  if truthy (get profile "displayName") then get profile "displayName"
  else if truthy (get profile "name") then get profile "name"
  else if truthy (get profile "username") then get profile "username"
  else jstr "User".

(** ** Carts, order ids, credentials *)

(** The checkout's test [!cart.length] on [users[index].cart || []]. *)
Definition cart_empty (u : UserRecord) : bool :=
  negb (truthy (length_of (cart u <||> Some (JArr [])))).




(** Whether a body lacks one of the listed fields ([!name || ...]). *)
Definition missing (body : json) (fields : list string) : bool :=
  existsb (fun k => negb (truthy (get (Some body) k))) fields.

(** The credential test of the login's [users.find]. *)
Definition credentials_match (body : json) (u : UserRecord) : bool :=
  strict_eq (email u) (get (Some body) "email")
  && strict_eq (password u) (get (Some body) "password").

(** ** Uniqueness of emails, and the requests that must keep it *)

(** Each non-empty email is in at most one record: two records with the
    same email, as values, are one record. *)
Definition unique_emails (us : list UserRecord) : Prop :=
  forall (i j : nat) (u v : UserRecord),
    us !! i = Some u -> us !! j = Some v ->
    truthy (email u) = true ->
    email u = email v ->
    i = j.

(** No two records carry emails that [===] takes for the same.  This is
    less than [unique_emails] asks ([unique_emails_distinct]): [===] never
    holds of two arrays or two objects, so it says nothing of emails that
    are not strings. *)
Definition emails_distinct (us : list UserRecord) : Prop :=
  forall (i j : nat) (u v : UserRecord),
    us !! i = Some u -> us !! j = Some v ->
    truthy (email u) = true ->
    strict_eq (email u) (email v) = true ->
    i = j.

(** The operations that touch the store, one request each. *)
Inductive operation : Type :=
| Register (login_error : option string) (body : json)
| Login (login_error : option string) (body : json)
| CartGet (req_user : jsval)
| CartReplace (req_user : jsval) (body : parsed)
| Checkout (req_user : jsval).

Definition perform (now : N) (op : operation) : M response :=
  match op with
  | Register login_error body => register login_error now body
  | Login login_error body => login login_error body
  | CartGet req_user => getCart now req_user
  | CartReplace req_user body => postCart now req_user body
  | Checkout req_user => checkout now req_user
  end.


(** ** Carts as they are sent and as they are stored *)



(** ** Users, identities and requests for the examples *)

Definition alice : UserRecord :=
  {| id := jstr "1700000000000";
     name := jstr "Alice";
     email := jstr "alice@example.com";
     password := jstr "s3cret";
     cart := Some (JArr []) |}.

Definition one_item : list json := [JObj [("sku", JStr "A"); ("qty", JNum 2)]].

Definition bob : UserRecord :=
  {| id := jstr "1700000000123";
     name := jstr "Bob";
     email := jstr "bob@example.com";
     password := jstr "hunter2";
     cart := Some (JArr one_item) |}.

(** A record as [getOrCreateUserRecord] makes it for an OAuth identity. *)
Definition gina : UserRecord :=
  {| id := jstr "42";
     name := jstr "Gina";
     email := jstr "gina@example.com";
     password := jstr "";
     cart := Some (JArr []) |}.

Definition no_users : world := {| users_file := Some (UsersJson []); writes := 0 |}.

Definition alice_only : world := {| users_file := Some (UsersJson [alice]); writes := 1 |}.

Definition three_users : world :=
  {| users_file := Some (UsersJson [alice; bob; gina]); writes := 3 |}.

Definition as_alice : jsval := Some (local_identity alice).

Definition as_bob : jsval := Some (local_identity bob).

(** What the Google strategy hands over for the account with id 42. *)
Definition google_42 : jsval :=
  Some (JObj [("provider", JStr "google");
              ("profile", JObj [("id", JStr "42"); ("displayName", JStr "Neo")])]).

(** What a strategy hands over for a profile that has an id and nothing
    else. *)
Definition facebook_77 : jsval :=
  Some (JObj [("provider", JStr "facebook"); ("profile", JObj [("id", JStr "77")])]).

(** An identity whose profile has neither an email nor an id. *)
Definition nameless : jsval :=
  Some (JObj [("provider", JStr "discord"); ("profile", JObj [("username", JStr "neo")])]).

Definition alice_credentials : json :=
  JObj [("email", JStr "alice@example.com"); ("password", JStr "s3cret")].

Definition only_alice_email : json := JObj [("email", JStr "alice@example.com")].

Definition alice_signs_up_again : json :=
  JObj [("name", JStr "Alice II"); ("email", JStr "alice@example.com");
        ("password", JStr "other")].

Definition carol_signs_up : json :=
  JObj [("name", JStr "Carol"); ("email", JStr "carol@example.com");
        ("password", JStr "pa55")].

Definition guess_gina : json :=
  JObj [("email", JStr "gina@example.com"); ("password", JStr "letmein")].

(** The body [{"cart":[{"sku":"A","qty":2}]}]. *)
Definition one_item_sent : list parsed := [PObj [("sku", PStr "A"); ("qty", PNum 2)]].

Definition alice_fills_cart : parsed := PObj [("cart", PArr one_item_sent)].

Definition cart_is_a_string : parsed := PObj [("cart", PStr "two apples")].


(** A record whose email is an array, and the registration that made it. *)
Definition dup : UserRecord :=
  {| id := jstr "1700000000555";
     name := jstr "Dup";
     email := Some (JArr [JStr "dup@example.com"]);
     password := jstr "pw";
     cart := Some (JArr []) |}.

Definition dup_only : world := {| users_file := Some (UsersJson [dup]); writes := 1 |}.

Definition dup_signs_up : json :=
  JObj [("name", JStr "Dup"); ("email", JArr [JStr "dup@example.com"]);
        ("password", JStr "pw")].

Definition logout_fails : session_layer :=
  {| logout_error := Some "Failed to save session";
     has_session := true;
     destroy_error := None |}.

Definition destroy_fails : session_layer :=
  {| logout_error := None; has_session := true; destroy_error := Some "store is down" |}.

(** ** What a request may do to the file, and histories of requests *)

(** Two records of the same account: everything but the cart agrees. *)
Definition same_account (u u' : UserRecord) : Prop :=
  id u' = id u /\ name u' = name u /\ email u' = email u /\ password u' = password u.

(** The ways in which a request changes the state: not at all; the file
    made when it was not there; one record appended; the cart of one record
    replaced; a record appended and its cart replaced at once. *)
Inductive effect (w : world) : world -> Prop :=
| effect_none : effect w w
| effect_ensure : effect w (ensured w)
| effect_append (n : UserRecord) :
    effect w {| users_file := Some (UsersJson (stored w ++ [n]));
                writes := S (writes (ensured w)) |}
| effect_cart (i : nat) (u : UserRecord) (c : jsval) :
    stored w !! i = Some u ->
    effect w {| users_file := Some (UsersJson (<[i := set_cart c u]> (stored w)));
                writes := S (writes w) |}
| effect_append_cart (n : UserRecord) :
    effect w {| users_file := Some (UsersJson (stored w ++ [n]));
                writes := S (S (writes (ensured w))) |}.

(** The state after a history of requests, each with its time stamp. *)
Fixpoint run (requests : list (N * operation)) (w : world) : world :=
  match requests with
  | [] => w
  | (now, op) :: rest => run rest (snd (perform now op w))
  end.

(** The identities that the examples log in with through a provider. *)
Definition gina_at_google : jsval :=
  Some (verify "google" (jstr "ya29.token") None
          (Some (JObj [("id", JStr "42"); ("displayName", JStr "Gina");
                       ("emails", JArr [JObj [("value", JStr "gina@example.com")]])]))).

Definition gina_at_discord : jsval :=
  Some (verify "discord" (jstr "d1sc0rd") (jstr "r3fresh")
          (Some (JObj [("id", JStr "42"); ("displayName", JStr "Gina");
                       ("emails", JArr [JObj [("value", JStr "gina@example.com")]])]))).

(** An identity with alice's email that did not come from a local login. *)
Definition alice_at_google : jsval :=
  Some (verify "google" (jstr "ya29.other") None
          (Some (JObj [("id", JStr "108"); ("displayName", JStr "A. Liddell");
                       ("emails", JArr [JObj [("value", JStr "alice@example.com")]])]))).

(** A session user of an older shape: the record itself, with no profile. *)
Definition bare_user : jsval :=
  Some (JObj [("id", JStr "1700000000123"); ("email", JStr "bob@example.com")]).

(** * Properties *)

(** ** The file as the handlers see it *)

Lemma readUsers_eq (w : world) : readUsers w = (Ok (stored w), ensured w).
Proof.
  unfold readUsers, ensureUsersFile, try_catch, bind, fs_access, fs_readFile,
    fs_writeFile, stored, ensured, ret.
  destruct w as [[[| |us]|] n]; reflexivity.
Qed.

Lemma stored_mk (us : list UserRecord) (n : nat) :
  stored {| users_file := Some (UsersJson us); writes := n |} = us.
Proof. reflexivity. Qed.

Lemma stored_ensured (w : world) : stored (ensured w) = stored w.
Proof. destruct w as [[[| |us]|] n]; reflexivity. Qed.

Lemma ensured_nonempty (w : world) : stored w <> [] -> ensured w = w.
Proof. destruct w as [[[| |us]|] n]; simpl; intros H; try reflexivity; contradiction. Qed.

Lemma writeUsers_eq (us : list UserRecord) (w : world) :
  writeUsers us w = (Ok tt, {| users_file := Some (UsersJson us); writes := S (writes w) |}).
Proof. reflexivity. Qed.

(** ** JavaScript operators *)

Lemma strict_eq_sym (a b : jsval) : strict_eq a b = strict_eq b a.
Proof.
  destruct a as [[]|], b as [[]|]; simpl; try reflexivity.
  - destruct b, b0; reflexivity.
  - apply Z.eqb_sym.
  - apply String.eqb_sym.
Qed.

Lemma strict_eq_truthy (a b : jsval) :
  strict_eq a b = true -> truthy a = truthy b.
Proof.
  destruct a as [[]|], b as [[]|]; simpl; try discriminate; try reflexivity.
  - intros H. apply Bool.eqb_prop in H. now subst.
  - intros H. apply Z.eqb_eq in H. now subst.
  - intros H. apply String.eqb_eq in H. now subst.
Qed.

Lemma strict_eq_eq (a b : jsval) : strict_eq a b = true -> a = b.
Proof.
  destruct a as [[]|], b as [[]|]; simpl; try discriminate; try reflexivity.
  - intros H. apply Bool.eqb_prop in H. now subst.
  - intros H. apply Z.eqb_eq in H. now subst.
  - intros H. apply String.eqb_eq in H. now subst.
Qed.

Lemma strict_eq_refl (v : jsval) : primitive v = true -> strict_eq v v = true.
Proof.
  destruct v as [[| b | n | s | |]|]; simpl; try reflexivity; try discriminate; intros _.
  - now destruct b.
  - apply Z.eqb_refl.
  - apply String.eqb_refl.
Qed.

Lemma js_or_truthy (a b : jsval) : truthy a = true -> a <||> b = a.
Proof. unfold js_or. now intros ->. Qed.

Lemma js_or_falsy (a b : jsval) : truthy a = false -> a <||> b = b.
Proof. unfold js_or. now intros ->. Qed.

Lemma js_and_truthy (a b : jsval) : truthy a = true -> a <&&> b = b.
Proof. unfold js_and. now intros ->. Qed.

Lemma js_and_falsy (a b : jsval) : truthy a = false -> a <&&> b = a.
Proof. unfold js_and. now intros ->. Qed.

(** Chains of [||] and [&&]: decide the truthiness of the head operand and
    rewrite with it. *)
Ltac js_step :=
  match goal with
  | H : truthy ?a = true |- context [?a <||> ?b] => rewrite (js_or_truthy a b H)
  | H : truthy ?a = false |- context [?a <||> ?b] => rewrite (js_or_falsy a b H)
  | H : truthy ?a = true |- context [?a <&&> ?b] => rewrite (js_and_truthy a b H)
  | H : truthy ?a = false |- context [?a <&&> ?b] => rewrite (js_and_falsy a b H)
  | H : truthy ?a = _ |- context [truthy ?a] => rewrite H
  end.

(** ** [findIndex] *)

Lemma findIndex_from_spec p l k :
  0 <= k ->
  (findIndex_from p l k = -1 /\ forall u, In u l -> p u = false) \/
  (exists i : nat, findIndex_from p l k = k + Z.of_nat i /\ first_match p l i).
Proof.
  revert k. induction l as [|u l IH]; intros k Hk; simpl.
  - left. split; [reflexivity | intros u []].
  - destruct (p u) eqn:Hp.
    + right. exists 0%nat. split; [lia |]. split.
      * exists u. split; [reflexivity | exact Hp].
      * intros j v Hj. lia.
    + destruct (IH (k + 1) ltac:(lia)) as [[H1 H2] | [i [H1 [[v [Hv Hpv]] Hlt]]]].
      * left. split; [exact H1 |]. intros v [<- | Hin]; [exact Hp | now apply H2].
      * right. exists (S i). split; [lia |]. split.
        -- exists v. split; [exact Hv | exact Hpv].
        -- intros [|j] x Hj Hx; simpl in Hx.
           ++ now inversion Hx; subst.
           ++ apply (Hlt j x); [lia | exact Hx].
Qed.

Lemma findIndex_spec p l :
  (findIndex p l = -1 /\ forall u, In u l -> p u = false) \/
  (exists i : nat, findIndex p l = Z.of_nat i /\ first_match p l i).
Proof.
  unfold findIndex.
  destruct (findIndex_from_spec p l 0 ltac:(lia)) as [H | [i [H1 H2]]].
  - now left.
  - right. exists i. split; [lia | exact H2].
Qed.

Lemma first_match_unique p l i j :
  first_match p l i -> first_match p l j -> i = j.
Proof.
  intros [[u [Hu Hpu]] Hi] [[v [Hv Hpv]] Hj].
  destruct (Nat.lt_trichotomy i j) as [H | [H | H]]; [| exact H |].
  - rewrite (Hj i u H Hu) in Hpu. discriminate.
  - rewrite (Hi j v H Hv) in Hpv. discriminate.
Qed.

Lemma at_index_of_nat (l : list UserRecord) (i : nat) : at_index l (Z.of_nat i) = l !! i.
Proof.
  unfold at_index. destruct (Z.ltb_spec (Z.of_nat i) 0) as [H | H]; [lia |].
  now rewrite Nat2Z.id.
Qed.

(** ** Resolution of an identity *)

Lemma lookupIndex_spec (mail profileId : jsval) (us : list UserRecord) :
  (truthy mail = true /\
   exists i : nat, lookupIndex mail profileId us = Z.of_nat i /\
                   first_match (by_email mail) us i)
  \/ (no_email_match mail us /\ truthy profileId = true /\
      exists i : nat, lookupIndex mail profileId us = Z.of_nat i /\
                      first_match (by_id profileId) us i)
  \/ (no_email_match mail us /\ no_id_match profileId us /\
      lookupIndex mail profileId us = -1).
Proof.
  unfold lookupIndex, no_email_match, no_id_match.
  fold (by_email mail) (by_id profileId).
  destruct (truthy mail) eqn:Hm.
  - destruct (findIndex_spec (by_email mail) us) as [[H1 H2] | [i [H1 H2]]].
    + rewrite H1. simpl (_ =? _).
      destruct (truthy profileId) eqn:Hp; simpl.
      * destruct (findIndex_spec (by_id profileId) us) as [[H3 H4] | [i [H3 H4]]].
        -- right; right. repeat split; [now right | now right | exact H3].
        -- right; left. repeat split; [now right | ]. exists i. now split.
      * right; right. repeat split; [now right | now left].
    + left. split; [reflexivity |]. exists i. split; [| exact H2].
      rewrite H1. destruct (Z.eqb_spec (Z.of_nat i) (-1)) as [E | E]; [lia |].
      reflexivity.
  - simpl (_ =? _). destruct (truthy profileId) eqn:Hp; simpl.
    + destruct (findIndex_spec (by_id profileId) us) as [[H3 H4] | [i [H3 H4]]].
      * right; right. repeat split; [now left | now right | exact H3].
      * right; left. repeat split; [now left | ]. exists i. now split.
    + right; right. repeat split; [now left | now left].
Qed.

Lemma truthy_not_nullish (v : jsval) : truthy v = true -> nullish v = false.
Proof. destruct v as [[]|]; simpl; congruence. Qed.

Lemma profile_of_truthy (su : jsval) : truthy su = true -> truthy (profile_of su) = true.
Proof.
  intros H. unfold profile_of, js_and. rewrite H.
  destruct (truthy (get su "profile")) eqn:E; [exact E | exact H].
Qed.

Lemma getOrCreate_found (now : N) (su : jsval) (w : world) (i : nat) :
  lookupIndex (email_of (profile_of su)) (profileId_of (profile_of su)) (stored w)
    = Z.of_nat i ->
  getOrCreateUserRecord now su w
    = (Ok {| user := stored w !! i; users := stored w; index := Z.of_nat i |},
       ensured w).
Proof.
  intros H. unfold getOrCreateUserRecord, bind. rewrite readUsers_eq, H.
  destruct (Z.eqb_spec (Z.of_nat i) (-1)) as [E | E]; [lia |].
  unfold ret. now rewrite at_index_of_nat.
Qed.

Lemma getOrCreate_created (now : N) (su : jsval) (w : world) :
  truthy su = true ->
  lookupIndex (email_of (profile_of su)) (profileId_of (profile_of su)) (stored w)
    = -1 ->
  getOrCreateUserRecord now su w
    = (Ok {| user := Some (newRec now (profile_of su));
             users := stored w ++ [newRec now (profile_of su)];
             index := Z.of_nat (List.length (stored w)) |},
       {| users_file := Some (UsersJson (stored w ++ [newRec now (profile_of su)]));
          writes := S (writes (ensured w)) |}).
Proof.
  intros Hsu H. unfold getOrCreateUserRecord, bind. rewrite readUsers_eq, H.
  simpl (_ =? _).
  rewrite (truthy_not_nullish _ (profile_of_truthy su Hsu)).
  rewrite writeUsers_eq. unfold ret. repeat f_equal.
  rewrite length_app. simpl. lia.
Qed.

(** *** The source's extraction is the one the specification words *)

Lemma get_falsy (v : jsval) (k : string) : truthy v = false -> get v k = None.
Proof. destruct v as [[]|]; simpl; try reflexivity; discriminate. Qed.

Lemma elem0_falsy (v : jsval) : truthy v = false -> elem0 v = None.
Proof.
  destruct v as [[| | |s| |]|]; simpl; try reflexivity; try discriminate.
  destruct s; [reflexivity | discriminate].
Qed.

(** [emails[0].value] as the embedding computes it, with [elem0] and [get],
    is the value read off the data. *)
Lemma elem0_value (profile : jsval) :
  get (elem0 (get profile "emails")) "value" = first_email_value profile.
Proof.
  unfold first_email_value.
  destruct (get profile "emails") as [[| b | n | s | items | members]|];
    try reflexivity.
  - destruct s; reflexivity.
  - destruct items as [|[| | | | |] rest]; reflexivity.
Qed.

Lemma email_of_eq (profile : jsval) : email_of profile = identity_email profile.
Proof.
  unfold email_of, identity_email. rewrite <- elem0_value.
  destruct (truthy profile) eqn:Hp.
  - destruct (truthy (get profile "emails")) eqn:He.
    + destruct (truthy (elem0 (get profile "emails"))) eqn:H0.
      * destruct (truthy (get (elem0 (get profile "emails")) "value")) eqn:Hv;
          destruct (truthy (get profile "email")) eqn:Hm;
          repeat js_step; reflexivity.
      * assert (Hv : truthy (get (elem0 (get profile "emails")) "value") = false)
          by now rewrite (get_falsy _ "value" H0).
        destruct (truthy (get profile "email")) eqn:Hm; repeat js_step; reflexivity.
    + assert (H0 : truthy (elem0 (get profile "emails")) = false)
        by now rewrite (elem0_falsy _ He).
      assert (Hv : truthy (get (elem0 (get profile "emails")) "value") = false)
        by now rewrite (get_falsy _ "value" H0).
      destruct (truthy (get profile "email")) eqn:Hm; repeat js_step; reflexivity.
  - assert (Hv : truthy (get (elem0 (get profile "emails")) "value") = false)
      by now rewrite (get_falsy _ "emails" Hp).
    assert (Hm : truthy (get profile "email") = false)
      by now rewrite (get_falsy _ "email" Hp).
    repeat js_step. reflexivity.
Qed.

Lemma profileId_of_eq (profile : jsval) : profileId_of profile = identity_id profile.
Proof.
  unfold profileId_of, identity_id.
  destruct (truthy profile) eqn:Hp.
  - destruct (truthy (get profile "id")) eqn:Hi;
      destruct (truthy (get profile "_id")) eqn:Hj; repeat js_step; reflexivity.
  - assert (Hi : truthy (get profile "id") = false)
      by now rewrite (get_falsy _ "id" Hp).
    assert (Hj : truthy (get profile "_id") = false)
      by now rewrite (get_falsy _ "_id" Hp).
    repeat js_step. reflexivity.
Qed.

Lemma newRec_name (now : N) (profile : jsval) :
  name (newRec now profile) = display_name profile.
Proof.
  unfold newRec, display_name. simpl.
  destruct (truthy (get profile "displayName")) eqn:Hd;
    destruct (truthy (get profile "name")) eqn:Hn;
    destruct (truthy (get profile "username")) eqn:Hu;
    repeat js_step; reflexivity.
Qed.

Lemma email_of_or_empty (profile : jsval) :
  email_of profile <||> jstr "" = email_of profile.
Proof.
  rewrite email_of_eq. unfold identity_email, js_or.
  destruct (truthy (first_email_value profile)) eqn:Hv;
    rewrite ?Hv; [reflexivity |].
  destruct (truthy (get profile "email")) eqn:Hm; rewrite ?Hm; reflexivity.
Qed.

(** The two tests of the search, in terms of the values: for an email that
    is no array and no object, a record passes when its email is that
    value; and a record passes the test by id when its id prints as the
    identity's id does. *)
Lemma by_email_primitive (mail : jsval) (u : UserRecord) :
  primitive mail = true -> (by_email mail u = true <-> email u = mail).
Proof.
  intros Hp. unfold by_email. split; [apply strict_eq_eq |].
  intros ->. now apply strict_eq_refl.
Qed.

Lemma by_id_strings (profileId : jsval) (u : UserRecord) :
  by_id profileId u = true <-> String_ (id u) = String_ profileId.
Proof. unfold by_id. apply String.eqb_eq. Qed.

(** C6.  For every session identity, [getOrCreateUserRecord] takes the
    email from [profile.emails[0].value] or [profile.email] and the provider
    id from the profile, and returns the first record with that email; only
    when the search by email finds nothing, the first record whose
    stringified id is the stringified provider id; and when neither search
    finds a record it appends and persists a new one with an empty cart, the
    empty string as password and a name that is "User" when the profile has
    no displayName, name or username.  In every case it returns the record,
    the whole array (which is what the file then holds) and the record's
    index in it.  A record has the email when its email is that very value
    (for an email that is a string), and has the id when both print
    alike. *)
Theorem getOrCreateUserRecord_resolves (now : N) (su : jsval) (w : world) :
  truthy su = true ->
  let profile := profile_of su in
  let mail := identity_email profile in
  let pid := identity_id profile in
  let us := stored w in
  exists r w',
    getOrCreateUserRecord now su w = (Ok r, w') /\
    stored w' = users r /\
    (exists u, user r = Some u /\ at_index (users r) (index r) = Some u) /\
    ((truthy mail = true /\
      exists i : nat, index r = Z.of_nat i /\ first_match (by_email mail) us i /\
                      users r = us /\ w' = ensured w)
     \/ (no_email_match mail us /\ truthy pid = true /\
         exists i : nat, index r = Z.of_nat i /\ first_match (by_id pid) us i /\
                         users r = us /\ w' = ensured w)
     \/ (no_email_match mail us /\ no_id_match pid us /\
         exists n, user r = Some n /\ users r = us ++ [n] /\
                   index r = Z.of_nat (List.length us) /\
                   writes w' = S (writes (ensured w)) /\
                   cart n = Some (JArr []) /\
                   password n = jstr "" /\
                   email n = mail /\
                   id n = jstr (if truthy pid then String_ pid else Number_toString now) /\
                   name n = display_name profile /\
                   (truthy (get profile "displayName") = false ->
                    truthy (get profile "name") = false ->
                    truthy (get profile "username") = false ->
                    name n = jstr "User"))) /\
    (primitive mail = true -> forall u, by_email mail u = true <-> email u = mail) /\
    (forall u, by_id pid u = true <-> String_ (id u) = String_ pid).
Proof.
  intros Hsu profile mail pid us. subst mail pid.
  assert (Htests :
            (primitive (identity_email profile) = true ->
             forall u, by_email (identity_email profile) u = true
                       <-> email u = identity_email profile) /\
            (forall u, by_id (identity_id profile) u = true
                       <-> String_ (id u) = String_ (identity_id profile))).
  { split; [intros Hp u; now apply by_email_primitive | intros u; apply by_id_strings]. }
  revert Htests.
  rewrite <- email_of_eq, <- profileId_of_eq. subst profile us. intros Htests.
  destruct (lookupIndex_spec (email_of (profile_of su)) (profileId_of (profile_of su))
              (stored w))
    as [[Hm [i [Hi Hf]]] | [[Hne [Hp [i [Hi Hf]]]] | [Hne [Hni Hi]]]].
  - exists {| user := stored w !! i; users := stored w; index := Z.of_nat i |}, (ensured w).
    split; [now apply getOrCreate_found |]. split; [apply stored_ensured |].
    destruct Hf as [[u [Hu Hpu]] Hlt]. split.
    + exists u. simpl. rewrite at_index_of_nat. now split.
    + split; [| exact Htests].
      left. split; [exact Hm |]. exists i. simpl. repeat split; eauto.
  - exists {| user := stored w !! i; users := stored w; index := Z.of_nat i |}, (ensured w).
    split; [now apply getOrCreate_found |]. split; [apply stored_ensured |].
    destruct Hf as [[u [Hu Hpu]] Hlt]. split.
    + exists u. simpl. rewrite at_index_of_nat. now split.
    + split; [| exact Htests].
      right; left. split; [exact Hne |]. split; [exact Hp |].
      exists i. simpl. repeat split; eauto.
  - eexists. eexists. split; [now apply getOrCreate_created |].
    split; [reflexivity |]. simpl. split.
    + eexists. split; [reflexivity |]. rewrite at_index_of_nat.
      rewrite lookup_app_r by lia. now rewrite Nat.sub_diag.
    + split; [| exact Htests].
      right; right. split; [exact Hne |]. split; [exact Hni |].
      eexists. repeat split.
      * apply email_of_or_empty.
      * apply newRec_name.
      * intros Hd Hn Hu. rewrite newRec_name. unfold display_name.
        now rewrite Hd, Hn, Hu.
Qed.

(** ** The cart handlers, once the identity is resolved *)

Lemma cart_empty_array (u : UserRecord) (items : list json) :
  cart u = Some (JArr items) -> cart_empty u = match items with [] => true | _ => false end.
Proof.
  intros H. unfold cart_empty. rewrite H. destruct items; reflexivity.
Qed.

Lemma lookup_some_nonempty (us : list UserRecord) (i : nat) (u : UserRecord) :
  us !! i = Some u -> us <> [].
Proof. intros H ->. now rewrite lookup_nil in H. Qed.

Lemma lookup_in_cases (su : jsval) (us : list UserRecord) :
  (exists (i : nat) u, lookup_in su us = Z.of_nat i /\ us !! i = Some u /\
                       identifies su u = true)
  \/ (lookup_in su us = -1 /\ forall u, In u us -> identifies su u = false).
Proof.
  unfold lookup_in, identifies.
  destruct (lookupIndex_spec (email_of (profile_of su)) (profileId_of (profile_of su)) us)
    as [[Hm [i [Hi [[u [Hu Hp]] _]]]] | [[Hne [Hp [i [Hi [[u [Hu Hpu]] _]]]]] | [Hne [Hni Hi]]]].
  - left. exists i, u. repeat split; try assumption. now rewrite Hm, Hp.
  - left. exists i, u. repeat split; try assumption. rewrite Hp, Hpu.
    now rewrite orb_true_r.
  - right. split; [exact Hi |]. intros u Hu.
    destruct Hne as [-> | Hne]; destruct Hni as [-> | Hni]; simpl;
      rewrite ?(Hne u Hu), ?(Hni u Hu), ?andb_false_r; reflexivity.
Qed.

Lemma getOrCreate_cases (now : N) (su : jsval) (w : world) :
  truthy su = true ->
  (exists (i : nat) u,
      lookup_in su (stored w) = Z.of_nat i /\ stored w !! i = Some u /\
      identifies su u = true /\
      getOrCreateUserRecord now su w
        = (Ok {| user := Some u; users := stored w; index := Z.of_nat i |}, w))
  \/ (lookup_in su (stored w) = -1 /\
      (forall u, In u (stored w) -> identifies su u = false) /\
      getOrCreateUserRecord now su w
        = (Ok {| user := Some (newRec now (profile_of su));
                 users := stored w ++ [newRec now (profile_of su)];
                 index := Z.of_nat (List.length (stored w)) |},
           created now su w)).
Proof.
  intros Hsu. destruct (lookup_in_cases su (stored w)) as [[i [u [Hi [Hu Hid]]]] | [Hi Hno]].
  - left. exists i, u. repeat split; try assumption.
    rewrite (getOrCreate_found now su w i Hi), Hu.
    now rewrite (ensured_nonempty w (lookup_some_nonempty _ _ _ Hu)).
  - right. repeat split; try assumption. now apply getOrCreate_created.
Qed.

(** For a truthy [req.user] the resolution never throws. *)
Lemma getOrCreate_returns (now : N) (su : jsval) (w : world) :
  truthy su = true ->
  exists r w1 u, getOrCreateUserRecord now su w = (Ok r, w1) /\ user r = Some u.
Proof.
  intros Hsu.
  destruct (getOrCreate_cases now su w Hsu) as [[i [v [_ [_ [_ E]]]]] | [_ [_ E]]];
    rewrite E; eauto.
Qed.

Lemma getOrCreate_user_at (now : N) (su : jsval) (w : world) (r : Resolved) (w1 : world) :
  truthy su = true ->
  getOrCreateUserRecord now su w = (Ok r, w1) ->
  at_index (users r) (index r) = user r /\ stored w1 = users r.
Proof.
  intros Hsu H.
  destruct (getOrCreate_cases now su w Hsu) as [[i [u [_ [Hu [_ E]]]]] | [_ [_ E]]];
    rewrite E in H; inversion H; subst; simpl; rewrite at_index_of_nat.
  - now split.
  - rewrite lookup_app_r by lia. now rewrite Nat.sub_diag.
Qed.

Lemma checkout_eval (now : N) (su : jsval) (w : world) (r : Resolved) (w1 : world)
    (u : UserRecord) :
  truthy su = true ->
  getOrCreateUserRecord now su w = (Ok r, w1) ->
  user r = Some u ->
  checkout now su w =
    if cart_empty u
    then (Ok (failure 400 "Giỏ hàng trống"), w1)
    else (Ok (res_json 200 (JObj [("ok", JBool true);
                                  ("orderId", JStr ("ORD-" ++ Number_toString now));
                                  ("message", JStr "Thanh toán thành công (mô phỏng)")])),
          cart_written (Some (JArr [])) r u w1).
Proof.
  intros Hsu H Hu.
  destruct (getOrCreate_user_at now su w r w1 Hsu H) as [Hat _].
  unfold checkout. rewrite Hsu. change (negb true) with false. cbv iota.
  unfold try_catch, bind. rewrite H, Hat, Hu.
  fold (cart_empty u). destruct (cart_empty u); reflexivity.
Qed.

Lemma postCart_eval (now : N) (su : jsval) (body : parsed) (w : world) (r : Resolved)
    (w1 : world) (u : UserRecord) :
  truthy su = true ->
  getOrCreateUserRecord now su w = (Ok r, w1) ->
  user r = Some u ->
  let newCart := if Parsed.isArray (Parsed.get (Some body) "cart")
                 then Parsed.get (Some body) "cart" else Some (PArr []) in
  postCart now su body w =
    (Ok (res_json 200 (JObj (("ok", JBool true)
                             :: field "cart" (option_map JSON_stringify newCart)))),
     cart_written (option_map JSON_stringify newCart) r u w1).
Proof.
  intros Hsu H Hu newCart.
  destruct (getOrCreate_user_at now su w r w1 Hsu H) as [Hat _].
  unfold postCart. rewrite Hsu. change (negb true) with false. cbv iota.
  unfold try_catch, bind. rewrite H, Hat, Hu. reflexivity.
Qed.

Lemma getCart_eval (now : N) (su : jsval) (w : world) (r : Resolved) (w1 : world)
    (u : UserRecord) :
  truthy su = true ->
  getOrCreateUserRecord now su w = (Ok r, w1) ->
  user r = Some u ->
  getCart now su w =
    (Ok (res_json 200 (JObj (("ok", JBool true)
                             :: field "cart" (cart u <||> Some (JArr []))))), w1).
Proof.
  intros Hsu H Hu. unfold getCart. rewrite Hsu. change (negb true) with false.
  cbv iota. unfold try_catch, bind. rewrite H, Hu. reflexivity.
Qed.

(** ** The search after a cart was written or a record appended *)

Lemma findIndex_from_map (p : UserRecord -> bool) (l l' : list UserRecord) (k : Z) :
  map p l = map p l' -> findIndex_from p l k = findIndex_from p l' k.
Proof.
  revert l' k. induction l as [|u l IH]; intros [|u' l'] k H; simpl in *;
    try discriminate; [reflexivity |].
  injection H as Hp Hl. rewrite Hp. destruct (p u'); [reflexivity |]. now apply IH.
Qed.

Lemma map_insert_same {B} (f : UserRecord -> B) (l : list UserRecord) (i : nat)
    (u v : UserRecord) :
  l !! i = Some u -> f v = f u -> map f (<[i := v]> l) = map f l.
Proof.
  revert i. induction l as [|x l IH]; intros [|i] H E; simpl in *; try discriminate.
  - injection H as ->. now rewrite E.
  - f_equal. now apply IH.
Qed.

Lemma lookup_in_set_cart (su : jsval) (us : list UserRecord) (i : nat)
    (u : UserRecord) (c : jsval) :
  us !! i = Some u ->
  lookup_in su (<[i := set_cart c u]> us) = lookup_in su us.
Proof.
  intros H. unfold lookup_in, lookupIndex, findIndex.
  rewrite (findIndex_from_map _ (<[i := set_cart c u]> us) us 0)
    by (now apply map_insert_same with (u := u)).
  rewrite (findIndex_from_map (fun u0 => String.eqb (String_ (id u0)) _)
             (<[i := set_cart c u]> us) us 0)
    by (now apply map_insert_same with (u := u)).
  reflexivity.
Qed.

Lemma findIndex_from_app_last (p : UserRecord -> bool) (l : list UserRecord)
    (x : UserRecord) (k : Z) :
  (forall u, In u l -> p u = false) ->
  findIndex_from p (l ++ [x]) k = if p x then k + Z.of_nat (List.length l) else -1.
Proof.
  revert k. induction l as [|u l IH]; intros k H; simpl.
  - destruct (p x); [lia | reflexivity].
  - rewrite (H u (or_introl eq_refl)). rewrite IH by (intros v Hv; apply H; now right).
    destruct (p x); [lia | reflexivity].
Qed.

Lemma insert_app_last (l : list UserRecord) (x y : UserRecord) :
  <[List.length l := y]> (l ++ [x]) = l ++ [y].
Proof.
  induction l as [|u l IH]; simpl; [reflexivity |]. now rewrite IH.
Qed.

(** ** Checkout *)

(** C1, as stated, fails: the first checkout of an identity that has no
    record yet answers 400, but [getOrCreateUserRecord] has by then appended
    the new record (with its empty cart) and rewritten the file. *)
Lemma checkout_empty_cart_creates_record :
  ~ (forall (now : N) (su : jsval) (w : world) (r : Resolved) (w1 : world)
            (u : UserRecord) (resp : response) (w' : world),
        truthy su = true ->
        getOrCreateUserRecord now su w = (Ok r, w1) ->
        user r = Some u ->
        cart_empty u = true ->
        checkout now su w = (Ok resp, w') ->
        status resp = 400 /\ w' = w).
Proof.
  intros H.
  destruct (H 1700000000000%N google_42 no_users _ _ _ _ _
              eq_refl eq_refl eq_refl eq_refl eq_refl) as [_ E].
  discriminate E.
Qed.

(** C1, amended.  When the resolved record has an empty cart the checkout
    answers 400.  If the identity names a record that the store already
    holds, the state is left exactly as it was: no record made or changed,
    no write to the file.  If it names none, the only change is the
    new record, with its empty cart, that [getOrCreateUserRecord] appended
    and persisted on the way. *)
Theorem checkout_empty_cart (now : N) (su : jsval) (w : world) (r : Resolved)
    (w1 : world) (u : UserRecord) :
  truthy su = true ->
  getOrCreateUserRecord now su w = (Ok r, w1) ->
  user r = Some u ->
  cart_empty u = true ->
  checkout now su w = (Ok (failure 400 "Giỏ hàng trống"), w1) /\
  ((exists v, In v (stored w) /\ identifies su v = true) -> w1 = w) /\
  ((forall v, In v (stored w) -> identifies su v = false) ->
   u = newRec now (profile_of su) /\
   stored w1 = stored w ++ [u] /\
   writes w1 = S (writes (ensured w))).
Proof.
  intros Hsu H Hu He. split.
  - rewrite (checkout_eval now su w r w1 u Hsu H Hu), He. reflexivity.
  - destruct (getOrCreate_cases now su w Hsu) as [[i [v [_ [Hv [Hid E]]]]] | [_ [Hno E]]];
      rewrite E in H; inversion H; subst; simpl in *.
    + split; [reflexivity |]. intros Hnone.
      apply list_elem_of_lookup_2, list_elem_of_In in Hv.
      rewrite (Hnone v Hv) in Hid. discriminate.
    + split.
      * intros [v [Hv Hid]]. rewrite (Hno v Hv) in Hid. discriminate.
      * intros _. injection Hu as <-. repeat split.
Qed.

(** *** Order ids *)




Lemma at_index_insert (l : list UserRecord) (i : nat) (x : UserRecord) :
  (i < List.length l)%nat ->
  at_index (<[Z.to_nat (Z.of_nat i) := x]> l) (Z.of_nat i) = Some x.
Proof.
  intros H. rewrite at_index_of_nat, Nat2Z.id. now apply list_lookup_insert_eq.
Qed.

Lemma at_index_insert_ne (l : list UserRecord) (i : nat) (j : Z) (x : UserRecord) :
  j <> Z.of_nat i ->
  at_index (<[Z.to_nat (Z.of_nat i) := x]> l) j = at_index l j.
Proof.
  intros H. unfold at_index. destruct (Z.ltb_spec j 0); [reflexivity |].
  rewrite Nat2Z.id. apply list_lookup_insert_ne. lia.
Qed.


(** ** Replacing and reading the cart *)

Lemma resolved_index (now : N) (su : jsval) (w : world) (r : Resolved) (w1 : world)
    (u : UserRecord) :
  truthy su = true ->
  getOrCreateUserRecord now su w = (Ok r, w1) ->
  user r = Some u ->
  exists i : nat, index r = Z.of_nat i /\ users r !! i = Some u.
Proof.
  intros Hsu H Hu.
  destruct (getOrCreate_cases now su w Hsu) as [[i [v [_ [Hv [_ E]]]]] | [_ [_ E]]];
    rewrite E in H; injection H as Hr Hw; subst r w1; simpl in *;
    injection Hu as <-.
  - now exists i.
  - exists (List.length (stored w)). split; [reflexivity |].
    rewrite lookup_app_r by lia. now rewrite Nat.sub_diag.
Qed.

Lemma set_cart_same (u : UserRecord) (c : jsval) : same_account u (set_cart c u).
Proof. repeat split. Qed.

(** C9.  For every authenticated session and whatever the body's [cart]
    is, POST /api/cart answers 200 and writes the file once more; no other
    record is touched, and the resolved record keeps its id, name, email
    and password.  When [cart] is not an array (or is not there at all) the
    cart of the persisted record is the empty array, and so is the cart of
    the answer; when it is an array, the persisted cart is what
    [JSON.stringify] writes of it, its items never looked at. *)
Theorem postCart_coerces_non_array (now : N) (su : jsval) (body : parsed) (w : world) :
  truthy su = true ->
  exists r w1 u resp w' u',
    getOrCreateUserRecord now su w = (Ok r, w1) /\
    user r = Some u /\
    postCart now su body w = (Ok resp, w') /\
    status resp = 200 /\
    writes w' = S (writes w1) /\
    at_index (stored w') (index r) = Some u' /\
    same_account u u' /\
    (forall j, j <> index r -> at_index (stored w') j = at_index (stored w1) j) /\
    (Parsed.isArray (Parsed.get (Some body) "cart") = false ->
     cart u' = Some (JArr []) /\
     u' = set_cart (Some (JArr [])) u /\
     get (Some (payload resp)) "cart" = Some (JArr [])) /\
    (forall items,
        Parsed.get (Some body) "cart" = Some (PArr items) ->
        cart u' = Some (JArr (map JSON_stringify items)) /\
        get (Some (payload resp)) "cart" = Some (JArr (map JSON_stringify items))).
Proof.
  intros Hsu.
  destruct (getOrCreate_returns now su w Hsu) as [r [w1 [u [H Hu]]]].
  destruct (resolved_index now su w r w1 u Hsu H Hu) as [i [Hi Hl]].
  destruct (getOrCreate_user_at now su w r w1 Hsu H) as [_ Hs].
  pose proof (lookup_lt_Some _ _ _ Hl) as Hlt.
  pose proof (postCart_eval now su body w r w1 u Hsu H Hu) as Hp. cbv zeta in Hp.
  set (newCart := if Parsed.isArray (Parsed.get (Some body) "cart")
                  then Parsed.get (Some body) "cart" else Some (PArr [])) in Hp.
  exists r, w1, u. eexists. eexists. exists (set_cart (option_map JSON_stringify newCart) u).
  split; [exact H |]. split; [exact Hu |]. split; [exact Hp |].
  split; [reflexivity |]. split; [reflexivity |].
  unfold cart_written. rewrite stored_mk, Hi, Hs.
  split; [now apply at_index_insert |].
  split; [apply set_cart_same |].
  split; [intros j Hj; now apply at_index_insert_ne |].
  split.
  - intros Hna. subst newCart. rewrite Hna. repeat split.
  - intros items Hc. subst newCart. rewrite Hc. split; reflexivity.
Qed.

Lemma keyed_identifies_new (now : N) (su : jsval) (c : jsval) :
  keyed su = true ->
  identifies su (set_cart c (newRec now (profile_of su))) = true.
Proof.
  unfold keyed, identifies, by_email, by_id. simpl.
  rewrite email_of_or_empty.
  destruct (truthy (profileId_of (profile_of su))) eqn:Hp.
  - intros _. simpl. rewrite String.eqb_refl. now rewrite orb_true_r.
  - rewrite !orb_false_r. intros H. apply andb_prop in H as [Ht Hpr].
    now rewrite Ht, (strict_eq_refl _ Hpr).
Qed.

Lemma lookup_in_none (su : jsval) (us : list UserRecord) :
  lookup_in su us = -1 ->
  no_email_match (email_of (profile_of su)) us /\
  no_id_match (profileId_of (profile_of su)) us.
Proof.
  unfold lookup_in. intros H.
  destruct (lookupIndex_spec (email_of (profile_of su)) (profileId_of (profile_of su)) us)
    as [[_ [i [Hi _]]] | [[_ [_ [i [Hi _]]]] | [Hne [Hni _]]]]; [lia | lia | now split].
Qed.

Lemma lookup_in_app_new (su : jsval) (us : list UserRecord) (n : UserRecord) :
  lookup_in su us = -1 ->
  identifies su n = true ->
  lookup_in su (us ++ [n]) = Z.of_nat (List.length us).
Proof.
  intros H Hid. destruct (lookup_in_none su us H) as [Hne Hni].
  unfold identifies in Hid. unfold lookup_in, lookupIndex, findIndex.
  fold (by_email (email_of (profile_of su))) (by_id (profileId_of (profile_of su))).
  assert (Hid_case : truthy (profileId_of (profile_of su)) = true ->
                     by_id (profileId_of (profile_of su)) n = true ->
                     findIndex_from (by_id (profileId_of (profile_of su))) (us ++ [n]) 0
                     = Z.of_nat (List.length us)).
  { intros Hp Hb. destruct Hni as [Hni | Hni]; [congruence |].
    rewrite findIndex_from_app_last by exact Hni. rewrite Hb. lia. }
  destruct (truthy (email_of (profile_of su))) eqn:Hm.
  - destruct Hne as [Hne | Hne]; [congruence |].
    rewrite findIndex_from_app_last by exact Hne.
    destruct (by_email (email_of (profile_of su)) n) eqn:Hb.
    + destruct (Z.eqb_spec (0 + Z.of_nat (List.length us)) (-1)); [lia |]. simpl. lia.
    + simpl in Hid. apply andb_prop in Hid as [Hp Hbi].
      simpl (_ =? _). rewrite Hp. simpl. now apply Hid_case.
  - simpl in Hid. apply andb_prop in Hid as [Hp Hbi].
    simpl (_ =? _). rewrite Hp. simpl. now apply Hid_case.
Qed.


(** *** What [JSON.stringify] gives back *)



(** An identity that carries neither an email nor an id is given a new
    record on every request, so the cart that POST /api/cart stored in the
    first record is not the cart that GET /api/cart reads from the second:
    the round trip needs an identity that a later request is recognised
    by. *)
Lemma keyless_identity_new_record_each_time :
  ~ (forall (now1 now2 : N) (su : jsval) (c : list parsed) (w : world)
            (r1 r2 : response) (w1 w2 : world),
        truthy su = true ->
        postCart now1 su (PObj [("cart", PArr c)]) w = (Ok r1, w1) ->
        getCart now2 su w1 = (Ok r2, w2) ->
        get (Some (payload r2)) "cart" = Some (JArr (map JSON_stringify c))).
Proof.
  intros H.
  pose proof (H 1700000000000%N 1700000000500%N nameless one_item_sent no_users _ _ _ _
                eq_refl eq_refl eq_refl) as E.
  discriminate E.
Qed.



(** ** Register and login, evaluated *)

Lemma register_eval (login_error : option string) (now : N) (body : json) (w : world) :
  register login_error now body w =
    if missing body ["name"; "email"; "password"]
    then (Ok (failure 400 "Thiếu thông tin"), w)
    else if existsb (by_email (get (Some body) "email")) (stored w)
    then (Ok (failure 409 "Email đã tồn tại"), ensured w)
    else (Ok (match login_error with
              | Some _ => failure 500 "Lỗi khi đăng nhập sau đăng ký"
              | None => res_json 200 (JObj [("ok", JBool true);
                                            ("user", json_of_user (newUser now body))])
              end),
          {| users_file := Some (UsersJson (stored w ++ [newUser now body]));
             writes := S (writes (ensured w)) |}).
Proof.
  unfold register, missing, try_catch, bind. simpl existsb. rewrite orb_false_r, orb_assoc.
  destruct (_ || _ || _); [reflexivity |].
  rewrite readUsers_eq. fold (by_email (get (Some body) "email")).
  destruct (existsb _ (stored w)); [reflexivity |].
  rewrite writeUsers_eq. reflexivity.
Qed.

Lemma login_eval (login_error : option string) (body : json) (w : world) :
  login login_error body w =
    if missing body ["email"; "password"]
    then (Ok (failure 400 "Thiếu thông tin"), w)
    else match find (credentials_match body) (stored w) with
         | None => (Ok (failure 401 "Email hoặc mật khẩu không đúng"), ensured w)
         | Some u =>
             (Ok (match login_error with
                  | Some _ => failure 500 "Lỗi khi đăng nhập"
                  | None => res_json 200 (JObj [("ok", JBool true);
                                                ("user", json_of_user u)])
                  end),
              ensured w)
         end.
Proof.
  unfold login, missing, try_catch, bind. simpl existsb. rewrite orb_false_r.
  destruct (_ || _); [reflexivity |].
  rewrite readUsers_eq. fold (credentials_match body).
  destruct (find _ (stored w)); reflexivity.
Qed.

Lemma missing_login (body : json) :
  missing body ["email"; "password"]
  = negb (truthy (get (Some body) "email")) || negb (truthy (get (Some body) "password")).
Proof. unfold missing, existsb. now rewrite orb_false_r. Qed.

(** ** Uniqueness of emails *)

Lemma unique_emails_distinct (us : list UserRecord) :
  unique_emails us -> emails_distinct us.
Proof.
  intros Hu i j u v Hi Hj Ht He. exact (Hu i j u v Hi Hj Ht (strict_eq_eq _ _ He)).
Qed.







(** A registration with an email that is an array is answered 200 although
    a stored record carries the very same array: [===] does not hold of two
    arrays, so the test for a stored email does not see it, and a second
    record with that email is appended. *)
Lemma register_array_email_again :
  email dup = get (Some dup_signs_up) "email" /\
  register None 1700000000999%N dup_signs_up dup_only
  = (Ok (res_json 200 (JObj [("ok", JBool true);
                             ("user", json_of_user (newUser 1700000000999%N dup_signs_up))])),
     {| users_file := Some (UsersJson [dup; newUser 1700000000999%N dup_signs_up]);
        writes := 2 |}) /\
  email (newUser 1700000000999%N dup_signs_up) = email dup.
Proof. repeat split. Qed.



(** ** Login *)

(** C4, as stated, fails in one direction: with both fields there and a
    record that matches them, the answer is still 500 when [req.login]
    reports an error. *)
Lemma login_match_but_session_error :
  ~ (forall (login_error : option string) (body : json) (w : world)
            (resp : response) (w' : world),
        login login_error body w = (Ok resp, w') ->
        (status resp = 200 <->
         truthy (get (Some body) "email") = true /\
         truthy (get (Some body) "password") = true /\
         exists u, In u (stored w) /\ credentials_match body u = true)).
Proof.
  intros H.
  destruct (H (Some "session store is down") alice_credentials alice_only _ _ eq_refl)
    as [_ E].
  assert (E' : status (failure 500 "Lỗi khi đăng nhập") = 200).
  { apply E. repeat split. exists alice. split; [now left | reflexivity]. }
  discriminate E'.
Qed.

(** C4, amended.  POST /api/login answers 200 if and only if the body has
    both an email and a password, some stored record has exactly that email
    and that password, and [req.login] sets the session up without an
    error.  It answers 400 when either field is missing, 401 when both are
    there and no record matches, and 500 when a record matches but
    [req.login] reports an error; so no mismatch ever gives 200.  The
    stored records are left as they were. *)
Theorem login_status (login_error : option string) (body : json) (w : world) :
  let mail := get (Some body) "email" in
  let pass := get (Some body) "password" in
  let matched := exists u, In u (stored w) /\ credentials_match body u = true in
  exists resp w',
    login login_error body w = (Ok resp, w') /\
    stored w' = stored w /\
    (status resp = 200 <->
     truthy mail = true /\ truthy pass = true /\ matched /\ login_error = None) /\
    (truthy mail = false \/ truthy pass = false -> status resp = 400) /\
    (truthy mail = true -> truthy pass = true -> ~ matched -> status resp = 401) /\
    (truthy mail = true -> truthy pass = true -> matched -> login_error <> None ->
     status resp = 500).
Proof.
  intros mail pass matched. subst mail pass matched.
  rewrite login_eval, missing_login.
  destruct (truthy (get (Some body) "email")) eqn:Hm;
    destruct (truthy (get (Some body) "password")) eqn:Hp; simpl negb; simpl orb;
    cbv iota.
  2-4: (eexists; eexists; split; [reflexivity |]; split; [reflexivity |];
        repeat split; try (simpl; intros; intuition congruence);
        simpl; intros; discriminate).
  destruct (find (credentials_match body) (stored w)) as [u|] eqn:Hf.
  - apply find_some in Hf.
    assert (Hyes : exists u, In u (stored w) /\ credentials_match body u = true)
      by now exists u.
    destruct login_error as [e|]; eexists; eexists;
      (split; [reflexivity |]); (split; [apply stored_ensured |]); simpl;
      repeat split; try (intros; intuition congruence).
  - eexists; eexists; (split; [reflexivity |]); (split; [apply stored_ensured |]); simpl.
    assert (Hno : ~ (exists u, In u (stored w) /\ credentials_match body u = true)).
    { intros [u [Hin Hc]]. rewrite (find_none _ _ Hf u Hin) in Hc. discriminate. }
    repeat split; try (intros; intuition congruence).
Qed.

(** ** Register *)

(** C5, as stated, fails: a request that repeats a stored email but lacks
    its name (or password) is turned away with 400 by the missing-field
    test, which comes before the look at the store.  (It fails as well for
    an email that is an array: see [register_array_email_again].) *)
Lemma register_missing_field_before_conflict :
  ~ (forall (login_error : option string) (now : N) (body : json) (w : world)
            (resp : response) (w' : world),
        (exists u, In u (stored w) /\ email u = get (Some body) "email") ->
        register login_error now body w = (Ok resp, w') ->
        status resp = 409 /\ w' = w).
Proof.
  intros H.
  destruct (H None 1700000000999%N only_alice_email alice_only _ _
              (ex_intro _ alice (conj (or_introl eq_refl) eq_refl)) eq_refl) as [E _].
  discriminate E.
Qed.

(** C5, amended.  A POST /api/register whose email is a string (or another
    value that is no array and no object) and is the email of a stored
    record is answered 409 when the body has a name, an email and a
    password, and 400 when one of them is missing; either way the state is
    exactly what it was, so no second record with that email is made. *)
Theorem register_existing_email (login_error : option string) (now : N) (body : json)
    (w : world) :
  (exists u, In u (stored w) /\ email u = get (Some body) "email") ->
  primitive (get (Some body) "email") = true ->
  exists resp,
    register login_error now body w = (Ok resp, w) /\
    (missing body ["name"; "email"; "password"] = false ->
     resp = failure 409 "Email đã tồn tại") /\
    (missing body ["name"; "email"; "password"] = true ->
     resp = failure 400 "Thiếu thông tin").
Proof.
  intros [u [Hin He]] Hp. rewrite register_eval.
  destruct (missing body _).
  - eexists. split; [reflexivity |]. split; [discriminate | reflexivity].
  - assert (Hex : existsb (by_email (get (Some body) "email")) (stored w) = true).
    { apply existsb_exists. exists u. split; [exact Hin |].
      unfold by_email. rewrite He. now apply strict_eq_refl. }
    rewrite Hex. rewrite ensured_nonempty by (intros E; rewrite E in Hin; destruct Hin).
    eexists. split; [reflexivity |]. split; [reflexivity | discriminate].
Qed.

(** ** Records without a password *)

Lemma strict_eq_empty_truthy (v : jsval) :
  truthy v = true -> strict_eq (jstr "") v = false.
Proof.
  destruct v as [[| | |s| |]|]; simpl; try reflexivity.
  destruct s; [discriminate | reflexivity].
Qed.

(** C10.  Take a stored record whose password is the empty string, as
    [getOrCreateUserRecord] makes them.  A login that submits an empty or
    absent password is answered 400, before any record is looked at.  With
    a non-empty password the record fails the credential test, so a 200
    always belongs to another record, one with a non-empty password; and
    when emails are unique in the store (it is enough that no two of them
    are the same to [===]), a login with that record's email and any
    non-empty password is answered 401. *)
Theorem login_never_matches_empty_password (login_error : option string) (body : json)
    (w : world) (r : UserRecord) :
  In r (stored w) ->
  password r = jstr "" ->
  exists resp w',
    login login_error body w = (Ok resp, w') /\
    (truthy (get (Some body) "password") = false -> status resp = 400) /\
    (truthy (get (Some body) "password") = true -> credentials_match body r = false) /\
    (status resp = 200 ->
     exists u, In u (stored w) /\ u <> r /\ truthy (password u) = true /\
               credentials_match body u = true /\
               get (Some (payload resp)) "user" = Some (json_of_user u)) /\
    (truthy (get (Some body) "password") = true ->
     truthy (get (Some body) "email") = true ->
     strict_eq (email r) (get (Some body) "email") = true ->
     emails_distinct (stored w) ->
     status resp = 401).
Proof.
  intros Hin Hpw.
  assert (Hr : truthy (get (Some body) "password") = true -> credentials_match body r = false).
  { intros Hp. unfold credentials_match. rewrite Hpw, (strict_eq_empty_truthy _ Hp).
    apply andb_false_r. }
  rewrite login_eval, missing_login.
  destruct (truthy (get (Some body) "password")) eqn:Hp.
  2: { rewrite orb_true_r. eexists; eexists. split; [reflexivity |].
       repeat split; simpl; intros; congruence. }
  destruct (truthy (get (Some body) "email")) eqn:Hm; simpl negb; simpl orb; cbv iota.
  2: { eexists; eexists. split; [reflexivity |].
       repeat split; simpl; intros; try congruence. now apply Hr. }
  destruct (find (credentials_match body) (stored w)) as [u|] eqn:Hf.
  - apply find_some in Hf. destruct Hf as [Hu Hc].
    assert (Hne : u <> r) by (intros ->; rewrite (Hr eq_refl) in Hc; discriminate).
    assert (Htp : truthy (password u) = true).
    { unfold credentials_match in Hc. apply andb_prop in Hc as [_ Hc2].
      now rewrite (strict_eq_truthy _ _ Hc2). }
    assert (Huniq : strict_eq (email r) (get (Some body) "email") = true ->
                    emails_distinct (stored w) -> False).
    { intros He Huq. apply Hne.
      unfold credentials_match in Hc. apply andb_prop in Hc as [Hc1 _].
      apply list_elem_of_In, list_elem_of_lookup_1 in Hin as [i Hi].
      apply list_elem_of_In, list_elem_of_lookup_1 in Hu as [j Hj].
      assert (E : i = j).
      { apply (Huq i j r u Hi Hj).
        - now rewrite (strict_eq_truthy _ _ He).
        - rewrite (strict_eq_eq _ _ Hc1). exact He. }
      subst j. congruence. }
    destruct login_error as [e|]; eexists; eexists; (split; [reflexivity |]);
      repeat split; simpl; intros; try congruence; try (now apply Hr);
      try (exfalso; now apply Huniq).
    exists u. repeat split; assumption.
  - eexists; eexists. split; [reflexivity |].
    repeat split; simpl; intros; try congruence. now apply Hr.
Qed.

(** ** Logout *)

(** C2, as stated, fails: when [req.logout] itself reports an error the
    handler hands it to [next] and never calls [res.clearCookie]. *)
Lemma logout_error_leaves_cookie :
  Part000.logout None logout_fails = Next "Failed to save session" /\
  cookie_cleared (Part000.sessionName None) (Part000.logout None logout_fails) = false.
Proof. split; reflexivity. Qed.

(** The older handler of src/server.js calls [res.clearCookie] on no path.
    When [req.logout] reports no error and the session is there, it answers
    200 with [{ok: true}] whatever [req.session.destroy] reports, a failed
    destruction included; when [req.logout] reports an error, it hands that
    error to [next] and sends no answer of its own. *)
Lemma ServerJs_logout_never_clears (cookie : string) (s : session_layer) :
  cookie_cleared cookie (ServerJs.logout s) = false /\
  (logout_error s = None -> has_session s = true ->
   ServerJs.logout s = Responded (res_json 200 (JObj [("ok", JBool true)]))) /\
  (forall err, logout_error s = Some err -> ServerJs.logout s = Next err).
Proof.
  unfold ServerJs.logout. split; [| split].
  - destruct (logout_error s), (has_session s); reflexivity.
  - intros -> ->. reflexivity.
  - intros err ->. reflexivity.
Qed.

(** C2, amended.  In the logout handler that clears the cookie (the second
    copy of the server), whenever [req.logout] reports no error the
    response clears the session cookie, whether [req.session.destroy]
    succeeds, fails or there is no session to destroy; the status is 500
    when the destruction fails and 200 otherwise. *)
Theorem logout_clears_cookie (SESSION_NAME : option string) (s : session_layer) :
  logout_error s = None ->
  cookie_cleared (Part000.sessionName SESSION_NAME) (Part000.logout SESSION_NAME s) = true /\
  (has_session s = true -> destroy_error s <> None ->
   status_of (Part000.logout SESSION_NAME s) = Some 500) /\
  (has_session s = false \/ destroy_error s = None ->
   status_of (Part000.logout SESSION_NAME s) = Some 200).
Proof.
  intros Hl. unfold Part000.logout. rewrite Hl.
  destruct (has_session s), (destroy_error s); simpl;
    rewrite String.eqb_refl; repeat split; intros; intuition congruence.
Qed.

(** ** Without a session *)

(** The three cart routes turn a request without a logged-in user away
    with 401 and touch nothing. *)
Lemma cart_routes_need_session (now : N) (req_user : jsval) (body : parsed) (w : world) :
  truthy req_user = false ->
  getCart now req_user w = (Ok (failure 401 "Chưa đăng nhập"), w) /\
  postCart now req_user body w = (Ok (failure 401 "Chưa đăng nhập"), w) /\
  checkout now req_user w = (Ok (failure 401 "Chưa đăng nhập"), w).
Proof.
  intros H. unfold getCart, postCart, checkout. rewrite H. repeat split.
Qed.

(** A registration with all three fields and an email that no stored record
    has appends a record with that name, email and password and an empty
    cart, writes the file, and answers 200 with the new record unless
    [req.login] reports an error. *)
Lemma register_new_email (login_error : option string) (now : N) (body : json) (w : world) :
  missing body ["name"; "email"; "password"] = false ->
  (forall u, In u (stored w) -> strict_eq (email u) (get (Some body) "email") = false) ->
  exists resp w',
    register login_error now body w = (Ok resp, w') /\
    stored w' = stored w ++ [newUser now body] /\
    cart (newUser now body) = Some (JArr []) /\
    writes w' = S (writes (ensured w)) /\
    (login_error = None ->
     status resp = 200 /\
     get (Some (payload resp)) "user" = Some (json_of_user (newUser now body))) /\
    (login_error <> None -> status resp = 500).
Proof.
  intros Hm Hno. rewrite register_eval, Hm.
  assert (He : existsb (by_email (get (Some body) "email")) (stored w) = false).
  { destruct (existsb _ (stored w)) eqn:E; [| reflexivity].
    apply existsb_exists in E as [u [Hin Hu]]. unfold by_email in Hu.
    rewrite (Hno u Hin) in Hu. discriminate. }
  rewrite He. eexists; eexists. split; [reflexivity |].
  destruct login_error; repeat split; simpl; intros; congruence.
Qed.

(** ** The users.json helpers on their own *)

(** [readUsers] at the edges: a file that is not there is made, holding
    [[]], with one write; an empty or unparsable file reads as [[]] and is
    left as it is; and reading again returns the same array without a
    further write. *)
Lemma readUsers_edges (w : world) :
  (users_file w = None ->
   readUsers w = (Ok [], {| users_file := Some (UsersJson []); writes := S (writes w) |})) /\
  (users_file w = Some EmptyText \/ users_file w = Some InvalidJson ->
   readUsers w = (Ok [], w)) /\
  readUsers (snd (readUsers w)) = (fst (readUsers w), snd (readUsers w)).
Proof.
  rewrite !readUsers_eq. simpl fst. simpl snd. rewrite ?readUsers_eq.
  destruct w as [[[| |us]|] n]; simpl; repeat split; intros; intuition congruence.
Qed.

(** ** What one request does to the file *)

Lemma set_cart_own (u : UserRecord) : set_cart (cart u) u = u.
Proof. now destruct u. Qed.

Lemma ensured_file (w : world) :
  ensured w = w \/
  (users_file w = None /\
   ensured w = {| users_file := Some (UsersJson []); writes := S (writes w) |}).
Proof. destruct w as [[t|] n]; simpl; [now left | now right]. Qed.

(** Every request changes the state in one of the five ways of [effect]. *)
Lemma perform_effect (now : N) (op : operation) (w : world) :
  effect w (snd (perform now op w)).
Proof.
  assert (Hcart : forall su,
             truthy su = true ->
             forall r w1 u, getOrCreateUserRecord now su w = (Ok r, w1) ->
                            user r = Some u ->
                            effect w w1 /\
                            forall c, effect w (cart_written c r u w1)).
  { intros su Hsu r w1 u H Hu.
    destruct (getOrCreate_cases now su w Hsu) as [[i [v [_ [Hv [_ E]]]]] | [_ [_ E]]];
      rewrite E in H; injection H as Hr Hw; subst r w1; simpl in Hu;
      injection Hu as <-; unfold cart_written; simpl.
    - split; [constructor |]. intros c. rewrite Nat2Z.id. now constructor.
    - split; [apply effect_append |]. intros c.
      rewrite Nat2Z.id, insert_app_last. apply effect_append_cart. }
  destruct op as [le body | le body | su | su body | su]; simpl perform.
  - rewrite register_eval. destruct (missing body _); [constructor |].
    destruct (existsb _ (stored w)); simpl; constructor.
  - rewrite login_eval. destruct (missing body _); [constructor |].
    destruct (find _ (stored w)); simpl; constructor.
  - destruct (truthy su) eqn:Hsu.
    + destruct (getOrCreate_returns now su w Hsu) as [r [w1 [u [H Hu]]]].
      rewrite (getCart_eval now su w r w1 u Hsu H Hu). simpl.
      exact (proj1 (Hcart su Hsu r w1 u H Hu)).
    + unfold getCart. rewrite Hsu. constructor.
  - destruct (truthy su) eqn:Hsu.
    + destruct (getOrCreate_returns now su w Hsu) as [r [w1 [u [H Hu]]]].
      rewrite (postCart_eval now su body w r w1 u Hsu H Hu). simpl.
      exact (proj2 (Hcart su Hsu r w1 u H Hu) _).
    + unfold postCart. rewrite Hsu. constructor.
  - destruct (truthy su) eqn:Hsu.
    + destruct (getOrCreate_returns now su w Hsu) as [r [w1 [u [H Hu]]]].
      rewrite (checkout_eval now su w r w1 u Hsu H Hu).
      destruct (cart_empty u); simpl.
      * exact (proj1 (Hcart su Hsu r w1 u H Hu)).
      * exact (proj2 (Hcart su Hsu r w1 u H Hu) _).
    + unfold checkout. rewrite Hsu. constructor.
Qed.

Lemma effect_keeps_accounts (w w' : world) (i : nat) (u : UserRecord) :
  effect w w' ->
  stored w !! i = Some u ->
  exists u', stored w' !! i = Some u' /\ same_account u u'.
Proof.
  intros E Hi. destruct E as [| | n | j v c Hj | n]; rewrite ?stored_ensured, ?stored_mk.
  - exists u. split; [exact Hi | repeat split].
  - exists u. split; [exact Hi | repeat split].
  - exists u. split; [| repeat split].
    rewrite lookup_app_l; [exact Hi | now apply lookup_lt_Some in Hi].
  - destruct (Nat.eq_dec i j) as [-> | Hne].
    + rewrite Hj in Hi. injection Hi as ->.
      exists (set_cart c u). split; [| apply set_cart_same].
      apply list_lookup_insert_eq. now apply lookup_lt_Some in Hj.
    + exists u. split; [| repeat split].
      rewrite list_lookup_insert_ne by congruence. exact Hi.
  - exists u. split; [| repeat split].
    rewrite lookup_app_l; [exact Hi | now apply lookup_lt_Some in Hi].
Qed.

(** Whatever requests are served, one after another, no record is removed
    or moved, and no record's id, name, email or password is changed: the
    record that was at an index is still there, with at most another
    cart. *)
Theorem requests_keep_accounts (requests : list (N * operation)) (w : world)
    (i : nat) (u : UserRecord) :
  stored w !! i = Some u ->
  exists u', stored (run requests w) !! i = Some u' /\ same_account u u'.
Proof.
  revert w u. induction requests as [|[now op] rest IH]; intros w u Hi; simpl.
  - exists u. split; [exact Hi | repeat split].
  - destruct (effect_keeps_accounts w _ i u (perform_effect now op w) Hi)
      as [u1 [H1 [Ha [Hb [Hc Hd]]]]].
    destruct (IH _ u1 H1) as [u2 [H2 [Ha2 [Hb2 [Hc2 Hd2]]]]].
    exists u2. split; [exact H2 |]. repeat split; congruence.
Qed.

(** One request writes users.json at most three times and makes at most
    one record; and once it has written, the file holds a parsable array,
    the one that the next [readUsers] returns, even when the text before
    did not parse. *)
Theorem request_writes (now : N) (op : operation) (w : world) :
  let w' := snd (perform now op w) in
  (writes w <= writes w' <= writes w + 3)%nat /\
  (List.length (stored w) <= List.length (stored w') <= S (List.length (stored w)))%nat /\
  (writes w' <> writes w -> users_file w' = Some (UsersJson (stored w'))).
Proof.
  intros w'. subst w'.
  destruct (perform_effect now op w) as [| | n | j v c Hj | n];
    rewrite ?stored_ensured, ?stored_mk, ?length_app, ?length_insert; simpl;
    destruct (ensured_file w) as [E | [Hn E]]; rewrite ?E; simpl;
    repeat split; try lia; try congruence; try reflexivity.
  intros _. unfold stored. now rewrite Hn.
Qed.

(** ** More on the resolution of an identity *)

Lemma getOrCreate_by_profile (now : N) (su su' : jsval) (w : world) :
  profile_of su = profile_of su' ->
  getOrCreateUserRecord now su w = getOrCreateUserRecord now su' w.
Proof. intros H. unfold getOrCreateUserRecord. now rewrite H. Qed.

Lemma profile_of_verify (provider : string) (accessToken refreshToken profile : jsval) :
  truthy profile = true ->
  profile_of (Some (verify provider accessToken refreshToken profile)) = profile.
Proof.
  intros H. destruct profile as [j|]; [| discriminate].
  assert (G : get (Some (verify provider accessToken refreshToken (Some j))) "profile"
              = Some j) by (destruct accessToken; reflexivity).
  unfold profile_of. rewrite G.
  rewrite (js_and_truthy (Some (verify provider accessToken refreshToken (Some j)))
             (Some j) eq_refl).
  now rewrite H.
Qed.

(** The record that an identity resolves to does not depend on the provider
    that vouched for it, nor on its tokens: two identities with the same
    profile, say a Google and a Discord account with the same id or email,
    get the same record, index and state. *)
Theorem resolution_ignores_provider (now : N) (p1 p2 : string)
    (t1 r1 t2 r2 profile : jsval) (w : world) :
  truthy profile = true ->
  getOrCreateUserRecord now (Some (verify p1 t1 r1 profile)) w
  = getOrCreateUserRecord now (Some (verify p2 t2 r2 profile)) w.
Proof.
  intros H. apply getOrCreate_by_profile. now rewrite !profile_of_verify.
Qed.

(** Resolving an identity that carries an id or a string email a second
    time returns the very same record, array and index, and this time
    writes nothing: the record made at the first login is the one found at
    every later one. *)
Theorem getOrCreate_again (now now' : N) (su : jsval) (w : world) (r : Resolved)
    (w1 : world) :
  truthy su = true ->
  keyed su = true ->
  getOrCreateUserRecord now su w = (Ok r, w1) ->
  getOrCreateUserRecord now' su w1 = (Ok r, w1).
Proof.
  intros Hsu Hk H.
  destruct (getOrCreate_cases now su w Hsu) as [[i [v [Hi [Hv [_ E]]]]] | [Hi [_ E]]];
    rewrite E in H; injection H as Hr Hw; subst r w1.
  - rewrite (getOrCreate_found now' su w i Hi), Hv.
    now rewrite (ensured_nonempty w (lookup_some_nonempty _ _ _ Hv)).
  - set (n := newRec now (profile_of su)).
    assert (Hid : identifies su n = true).
    { rewrite <- (set_cart_own n). now apply keyed_identifies_new. }
    pose proof (lookup_in_app_new su (stored w) n Hi Hid) as Hl.
    pose proof (getOrCreate_found now' su (created now su w) (List.length (stored w))) as Hf.
    unfold created in Hf at 1. rewrite stored_mk in Hf. fold n in Hf.
    rewrite (Hf Hl). unfold created. fold n. rewrite stored_mk.
    rewrite lookup_app_r by lia. rewrite Nat.sub_diag. reflexivity.
Qed.

(** Called with [null] or [undefined], [getOrCreateUserRecord] throws a
    TypeError (at [profile.displayName]) before it appends anything: the
    records are those that were there. *)
Theorem getOrCreate_of_nothing (now : N) (su : jsval) (w : world) :
  nullish su = true ->
  getOrCreateUserRecord now su w = (Throw "TypeError", ensured w) /\
  stored (ensured w) = stored w.
Proof.
  intros H. split; [| apply stored_ensured].
  unfold getOrCreateUserRecord, bind. rewrite readUsers_eq.
  destruct su as [[]|]; try discriminate; reflexivity.
Qed.

(** ** /api/me *)

Lemma info_members (pr x1 x2 x3 x4 raw : jsval) :
  let info := field "provider" pr ++ field "id" x1 ++ field "name" x2
              ++ field "email" x3 ++ field "avatar" x4 ++ field "raw" raw in
  assoc "provider" info = pr /\ assoc "id" info = x1 /\ assoc "name" info = x2 /\
  assoc "email" info = x3 /\ assoc "avatar" info = x4 /\ assoc "raw" info = raw.
Proof.
  destruct pr, x1, x2, x3, x4, raw; repeat split; reflexivity.
Qed.

Lemma me_info (req_user : jsval) :
  truthy req_user = true ->
  nullish (get req_user "profile") = false ->
  exists info,
    me req_user
    = Responded (res_json 200 (JObj [("loggedIn", JBool true); ("user", JObj info)])) /\
    assoc "provider" info = get req_user "provider" /\
    assoc "id" info = get (get req_user "profile") "id" <||> jstr "" /\
    assoc "email" info
    = (get (get req_user "profile") "emails"
       <&&> elem0 (get (get req_user "profile") "emails")
       <&&> get (elem0 (get (get req_user "profile") "emails")) "value")
      <||> get (get req_user "profile") "email" <||> jstr "" /\
    assoc "raw" info = get req_user "profile".
Proof.
  intros Hu Hp. unfold me. rewrite Hu, Hp. simpl negb. cbv iota.
  eexists. split; [reflexivity |].
  match goal with
  | |- context [field "provider" ?pr ++ field "id" ?x1 ++ field "name" ?x2
                ++ field "email" ?x3 ++ field "avatar" ?x4 ++ field "raw" ?raw] =>
      destruct (info_members pr x1 x2 x3 x4 raw) as [H1 [H2 [_ [H4 [_ H6]]]]]
  end.
  repeat split; assumption.
Qed.

Lemma get_json_of_user (u : UserRecord) :
  get (Some (json_of_user u)) "id" = id u /\
  get (Some (json_of_user u)) "email" = email u /\
  get (Some (json_of_user u)) "password" = password u /\
  get (Some (json_of_user u)) "cart" = cart u /\
  get (Some (json_of_user u)) "_id" = None /\
  get (Some (json_of_user u)) "emails" = None.
Proof.
  destruct u as [[?|] [?|] [?|] [?|] [?|]]; repeat split; reflexivity.
Qed.

Lemma profile_of_local (u : UserRecord) :
  get (Some (local_identity u)) "profile" = Some (json_of_user u) /\
  profile_of (Some (local_identity u)) = Some (json_of_user u).
Proof. split; reflexivity. Qed.

Lemma email_of_local (u : UserRecord) :
  email_of (Some (json_of_user u)) = email u <||> jstr "" /\
  profileId_of (Some (json_of_user u)) = id u <||> jstr "".
Proof.
  destruct (get_json_of_user u) as [Hi [He [_ [_ [Hu Hs]]]]].
  rewrite email_of_eq, profileId_of_eq.
  unfold identity_email, identity_id, first_email_value.
  rewrite Hs, He, Hi, Hu. simpl. unfold js_or. split.
  - destruct (truthy (email u)); reflexivity.
  - destruct (truthy (id u)); reflexivity.
Qed.

(** /api/me answers exactly [{loggedIn: false}] if and only if there is no
    logged-in user. *)
Theorem me_logged_out_iff (req_user : jsval) :
  me req_user = Responded (res_json 200 (JObj [("loggedIn", JBool false)]))
  <-> truthy req_user = false.
Proof.
  split.
  - intros H. destruct (truthy req_user) eqn:Hu; [| reflexivity].
    destruct (nullish (get req_user "profile")) eqn:Hp.
    + unfold me in H. rewrite Hu, Hp in H. discriminate H.
    + destruct (me_info req_user Hu Hp) as [info [E _]]. rewrite E in H.
      discriminate H.
  - intros H. unfold me. now rewrite H.
Qed.

(** For a logged-in user whose identity has a profile, /api/me answers 200
    with [loggedIn: true], passes the whole profile on as [user.raw], and
    shows as [user.email] the very email by which [getOrCreateUserRecord]
    looks the user's record up. *)
Theorem me_shows_resolution_email (req_user : jsval) :
  truthy req_user = true ->
  truthy (get req_user "profile") = true ->
  exists info,
    me req_user
    = Responded (res_json 200 (JObj [("loggedIn", JBool true); ("user", JObj info)])) /\
    assoc "raw" info = get req_user "profile" /\
    assoc "email" info = email_of (profile_of req_user).
Proof.
  intros Hu Hp.
  destruct (me_info req_user Hu (truthy_not_nullish _ Hp)) as [info [E [_ [_ [He Hr]]]]].
  exists info. split; [exact E |]. split; [exact Hr |].
  rewrite He. unfold profile_of, email_of.
  rewrite (js_and_truthy req_user _ Hu), Hp.
  now rewrite (js_and_truthy (get req_user "profile") _ Hp).
Qed.

(** After a local login or registration the session's profile is the whole
    stored record, so /api/me hands the plain-text password out again, as
    [user.raw.password]. *)
Theorem me_discloses_password (u : UserRecord) :
  exists info,
    me (Some (local_identity u))
    = Responded (res_json 200 (JObj [("loggedIn", JBool true); ("user", JObj info)])) /\
    get (assoc "raw" info) "password" = password u.
Proof.
  destruct (me_info (Some (local_identity u)) eq_refl eq_refl) as [info [E [_ [_ [_ Hr]]]]].
  exists info. split; [exact E |].
  rewrite Hr, (proj1 (profile_of_local u)).
  exact (proj1 (proj2 (proj2 (get_json_of_user u)))).
Qed.

(** A session user without a [profile] member is served by the cart routes,
    which fall back on the user itself, but breaks /api/me, which reads
    [profile.id] unguarded. *)
Theorem me_needs_profile (now : N) (req_user : jsval) (w : world) :
  truthy req_user = true ->
  nullish (get req_user "profile") = true ->
  me req_user = Next "TypeError" /\
  exists resp w', getCart now req_user w = (Ok resp, w') /\ status resp = 200.
Proof.
  intros Hu Hp. split.
  - unfold me. now rewrite Hu, Hp.
  - destruct (getOrCreate_returns now req_user w Hu) as [r [w1 [u [H Hr]]]].
    rewrite (getCart_eval now req_user w r w1 u Hu H Hr). eauto.
Qed.


(** ** Requests one after another *)

Lemma lookupIndex_by_email (mail profileId : jsval) (us : list UserRecord) (i : nat) :
  truthy mail = true ->
  first_match (by_email mail) us i ->
  lookupIndex mail profileId us = Z.of_nat i.
Proof.
  intros Ht Hf.
  assert (Hcontra : no_email_match mail us -> False).
  { intros [Hn | Hn]; [congruence |].
    destruct Hf as [[u [Hu Hp]] _].
    apply list_elem_of_lookup_2, list_elem_of_In in Hu.
    rewrite (Hn u Hu) in Hp. discriminate. }
  destruct (lookupIndex_spec mail profileId us)
    as [[_ [j [Hj Hfj]]] | [[Hne _] | [Hne _]]]; try (exfalso; now apply Hcontra).
  now rewrite Hj, (first_match_unique _ _ _ _ Hfj Hf).
Qed.

Lemma first_match_exists (p : UserRecord -> bool) (us : list UserRecord) :
  (exists u, In u us /\ p u = true) -> exists i, first_match p us i.
Proof.
  intros [u [Hin Hp]].
  destruct (findIndex_spec p us) as [[_ Hn] | [i [_ Hf]]]; [| now exists i].
  rewrite (Hn u Hin) in Hp. discriminate.
Qed.

Lemma first_match_last (p : UserRecord -> bool) (us : list UserRecord) (n : UserRecord) :
  (forall u, In u us -> p u = false) ->
  p n = true ->
  first_match p (us ++ [n]) (List.length us).
Proof.
  intros Hno Hn. split.
  - exists n. split; [| exact Hn].
    rewrite lookup_app_r by lia. now rewrite Nat.sub_diag.
  - intros j v Hj Hv. rewrite lookup_app_l in Hv by exact Hj.
    apply list_elem_of_lookup_2, list_elem_of_In in Hv. now apply Hno.
Qed.

Lemma first_match_set_cart (mail : jsval) (us : list UserRecord) (i j : nat)
    (u : UserRecord) (c : jsval) :
  us !! j = Some u ->
  first_match (by_email mail) us i ->
  first_match (by_email mail) (<[j := set_cart c u]> us) i.
Proof.
  intros Hj [[v [Hv Hp]] Hlt].
  assert (Hlook : forall k x, (<[j := set_cart c u]> us) !! k = Some x ->
                              exists y, us !! k = Some y /\ by_email mail x = by_email mail y).
  { intros k x Hx. destruct (Nat.eq_dec k j) as [-> | Hne].
    - rewrite list_lookup_insert_eq in Hx by (now apply lookup_lt_Some in Hj).
      injection Hx as <-. exists u. now split.
    - rewrite list_lookup_insert_ne in Hx by congruence. exists x. now split. }
  split.
  - destruct (Nat.eq_dec i j) as [-> | Hne].
    + rewrite Hj in Hv. injection Hv as ->. exists (set_cart c v). split; [| exact Hp].
      apply list_lookup_insert_eq. now apply lookup_lt_Some in Hj.
    + exists v. split; [| exact Hp]. now rewrite list_lookup_insert_ne by congruence.
  - intros k x Hk Hx. destruct (Hlook k x Hx) as [y [Hy ->]]. exact (Hlt k y Hk Hy).
Qed.

Lemma local_identity_email (u : UserRecord) :
  truthy (email u) = true ->
  email_of (profile_of (Some (local_identity u))) = email u.
Proof.
  intros Ht. rewrite (proj2 (profile_of_local u)), (proj1 (email_of_local u)).
  now apply js_or_truthy.
Qed.

Lemma missing_register_fields (body : json) :
  missing body ["name"; "email"; "password"] = false ->
  truthy (get (Some body) "name") = true /\
  truthy (get (Some body) "email") = true /\
  truthy (get (Some body) "password") = true.
Proof.
  unfold missing. simpl. rewrite orb_false_r. intros H.
  apply orb_false_elim in H as [H1 H]. apply orb_false_elim in H as [H2 H3].
  repeat split; now apply negb_false_iff.
Qed.

Lemma register_fresh (login_error : option string) (now : N) (body : json) (w : world) :
  missing body ["name"; "email"; "password"] = false ->
  (forall u, In u (stored w) -> strict_eq (email u) (get (Some body) "email") = false) ->
  register login_error now body w
  = (Ok (match login_error with
         | Some _ => failure 500 "Lỗi khi đăng nhập sau đăng ký"
         | None => res_json 200 (JObj [("ok", JBool true);
                                       ("user", json_of_user (newUser now body))])
         end),
     {| users_file := Some (UsersJson (stored w ++ [newUser now body]));
        writes := S (writes (ensured w)) |}).
Proof.
  intros Hm Hno. rewrite register_eval, Hm.
  assert (He : existsb (by_email (get (Some body) "email")) (stored w) = false).
  { destruct (existsb _ (stored w)) eqn:E; [| reflexivity].
    apply existsb_exists in E as [u [Hin Hu]]. unfold by_email in Hu.
    rewrite (Hno u Hin) in Hu. discriminate. }
  now rewrite He.
Qed.

(** After a registration with a string email, the identity that the handler
    logs in resolves to the record just made, at the end of the array, with
    no further write; and /api/me shows the registered email for it. *)
Theorem register_then_resolves (login_error : option string) (now now' : N)
    (body : json) (w : world) :
  missing body ["name"; "email"; "password"] = false ->
  (forall u, In u (stored w) -> strict_eq (email u) (get (Some body) "email") = false) ->
  primitive (get (Some body) "email") = true ->
  let w' := snd (register login_error now body w) in
  let session := Some (local_identity (newUser now body)) in
  getOrCreateUserRecord now' session w'
  = (Ok {| user := Some (newUser now body);
           users := stored w ++ [newUser now body];
           index := Z.of_nat (List.length (stored w)) |}, w') /\
  exists info,
    me session
    = Responded (res_json 200 (JObj [("loggedIn", JBool true); ("user", JObj info)])) /\
    assoc "email" info = get (Some body) "email".
Proof.
  intros Hm Hno Hp w' session. subst w' session.
  destruct (missing_register_fields body Hm) as [_ [Hte _]].
  rewrite (register_fresh login_error now body w Hm Hno). simpl snd.
  set (n := newUser now body).
  set (w' := {| users_file := Some (UsersJson (stored w ++ [n])); writes := _ |}).
  assert (Hmail : email_of (profile_of (Some (local_identity n))) = get (Some body) "email")
    by (now apply local_identity_email).
  split.
  - assert (Hl : lookup_in (Some (local_identity n)) (stored w')
                 = Z.of_nat (List.length (stored w))).
    { unfold lookup_in. rewrite Hmail. apply lookupIndex_by_email; [exact Hte |].
      subst w'. rewrite stored_mk. apply first_match_last; [exact Hno |].
      unfold by_email. now apply strict_eq_refl. }
    rewrite (getOrCreate_found now' _ w' _ Hl). subst w'. rewrite stored_mk.
    rewrite lookup_app_r by lia. now rewrite Nat.sub_diag.
  - destruct (me_info (Some (local_identity n)) eq_refl eq_refl)
      as [info [E [_ [_ [He _]]]]].
    exists info. split; [exact E |]. rewrite He.
    rewrite (proj1 (profile_of_local n)).
    destruct (get_json_of_user n) as [_ [Hem [_ [_ [_ Hs]]]]].
    rewrite Hs, Hem. change (email n) with (get (Some body) "email").
    change (None <&&> elem0 None <&&> get (elem0 None) "value") with (@None json).
    rewrite (js_or_falsy None _ eq_refl). now apply js_or_truthy.
Qed.

(** A registration on which [req.login] reports an error is answered 500,
    but its record stays in the file: sending the same body again, with a
    string email, is answered 409. *)
Theorem register_session_error_keeps_record (e : string) (login_error : option string)
    (now now' : N) (body : json) (w : world) :
  missing body ["name"; "email"; "password"] = false ->
  (forall u, In u (stored w) -> strict_eq (email u) (get (Some body) "email") = false) ->
  primitive (get (Some body) "email") = true ->
  exists resp w',
    register (Some e) now body w = (Ok resp, w') /\
    status resp = 500 /\
    register login_error now' body w' = (Ok (failure 409 "Email đã tồn tại"), w').
Proof.
  intros Hm Hno Hp.
  rewrite (register_fresh (Some e) now body w Hm Hno).
  eexists. eexists. split; [reflexivity |]. split; [reflexivity |].
  set (w' := {| users_file := _; writes := _ |}).
  rewrite register_eval, Hm.
  assert (He : existsb (by_email (get (Some body) "email")) (stored w') = true).
  { apply existsb_exists. exists (newUser now body). split.
    - subst w'. rewrite stored_mk. apply in_or_app. right. now left.
    - unfold by_email. now apply strict_eq_refl. }
  rewrite He. reflexivity.
Qed.

Lemma lookup_in_by_email (su : jsval) (us : list UserRecord) (i : nat) :
  truthy (email_of (profile_of su)) = true ->
  first_match (by_email (email_of (profile_of su))) us i ->
  lookup_in su us = Z.of_nat i.
Proof. intros Ht Hf. unfold lookup_in. now apply lookupIndex_by_email. Qed.

(** Two identities with the same email, a string, are one account: when a
    stored record carries that email, the cart that one of them stores with
    POST /api/cart is the cart that the other reads with GET /api/cart, be
    it a local login and a provider's, or two providers'. *)
Theorem same_email_same_cart (now1 now2 : N) (su1 su2 : jsval) (body : parsed)
    (c : list parsed) (w : world) :
  truthy su1 = true ->
  truthy su2 = true ->
  email_of (profile_of su1) = email_of (profile_of su2) ->
  truthy (email_of (profile_of su1)) = true ->
  primitive (email_of (profile_of su1)) = true ->
  (exists u, In u (stored w) /\ email u = email_of (profile_of su1)) ->
  Parsed.get (Some body) "cart" = Some (PArr c) ->
  exists w1,
    postCart now1 su1 body w
    = (Ok (res_json 200 (JObj [("ok", JBool true);
                               ("cart", JArr (map JSON_stringify c))])), w1) /\
    getCart now2 su2 w1
    = (Ok (res_json 200 (JObj [("ok", JBool true);
                               ("cart", JArr (map JSON_stringify c))])), w1).
Proof.
  intros H1 H2 Hsame Ht Hprim [u0 [Hin0 He0]] Hc.
  assert (Hex : exists u, In u (stored w) /\ by_email (email_of (profile_of su1)) u = true).
  { exists u0. split; [exact Hin0 |]. unfold by_email. rewrite He0.
    now apply strict_eq_refl. }
  destruct (first_match_exists _ _ Hex) as [i Hf].
  pose proof Hf as [[u [Hu _]] _].
  pose proof (lookup_in_by_email su1 (stored w) i Ht Hf) as Hl1.
  pose proof (getOrCreate_found now1 su1 w i Hl1) as Hg.
  rewrite Hu, (ensured_nonempty w (lookup_some_nonempty _ _ _ Hu)) in Hg.
  pose proof (postCart_eval now1 su1 body w _ _ u H1 Hg eq_refl) as Hp.
  rewrite Hc in Hp. simpl in Hp. eexists. split; [exact Hp |].
  set (w1 := cart_written _ _ _ _).
  assert (Hs : stored w1 = <[i := set_cart (Some (JArr (map JSON_stringify c))) u]> (stored w))
    by (subst w1; unfold cart_written; simpl; now rewrite Nat2Z.id).
  assert (Hl2 : lookup_in su2 (stored w1) = Z.of_nat i).
  { apply lookup_in_by_email; rewrite <- Hsame; [exact Ht |].
    rewrite Hs. now apply first_match_set_cart. }
  pose proof (getOrCreate_found now2 su2 w1 i Hl2) as Hg2.
  assert (Hi : stored w1 !! i = Some (set_cart (Some (JArr (map JSON_stringify c))) u)).
  { rewrite Hs. apply list_lookup_insert_eq. now apply lookup_lt_Some in Hu. }
  rewrite Hi, (ensured_nonempty w1 (lookup_some_nonempty _ _ _ Hi)) in Hg2.
  now rewrite (getCart_eval now2 su2 w1 _ _ _ H2 Hg2 eq_refl).
Qed.

(** An order is placed once: after a checkout that answered 200, another
    checkout by the same user is answered 400 and changes nothing. *)
Theorem checkout_twice (now : N) (su : jsval) (w : world) (r : Resolved) (w1 : world)
    (u : UserRecord) (item : json) (rest : list json) :
  truthy su = true ->
  getOrCreateUserRecord now su w = (Ok r, w1) ->
  user r = Some u ->
  cart u = Some (JArr (item :: rest)) ->
  exists resp w',
    checkout now su w = (Ok resp, w') /\
    status resp = 200 /\
    forall now', checkout now' su w' = (Ok (failure 400 "Giỏ hàng trống"), w').
Proof.
  intros Hsu H Hu Hc.
  pose proof (checkout_eval now su w r w1 u Hsu H Hu) as Hco.
  rewrite (cart_empty_array u _ Hc) in Hco.
  destruct (getOrCreate_cases now su w Hsu) as [[i [v [Hi [Hv [_ E]]]]] | [_ [_ E]]];
    rewrite E in H; injection H as Hr Hw; subst r w1; simpl in *.
  2: { injection Hu as <-. discriminate Hc. }
  injection Hu as ->.
  eexists. eexists. split; [exact Hco |]. split; [reflexivity |].
  intros now'. set (w' := cart_written _ _ _ _).
  assert (Hs : stored w' = <[i := set_cart (Some (JArr [])) u]> (stored w))
    by (subst w'; unfold cart_written; simpl; now rewrite Nat2Z.id).
  assert (Hl : lookup_in su (stored w') = Z.of_nat i)
    by (rewrite Hs, lookup_in_set_cart; assumption).
  pose proof (getOrCreate_found now' su w' i Hl) as Hg.
  assert (Hi' : stored w' !! i = Some (set_cart (Some (JArr [])) u)).
  { rewrite Hs. apply list_lookup_insert_eq. now apply lookup_lt_Some in Hv. }
  rewrite Hi', (ensured_nonempty w' (lookup_some_nonempty _ _ _ Hi')) in Hg.
  now rewrite (checkout_eval now' su w' _ _ _ Hsu Hg eq_refl).
Qed.

(** When emails are unique in the store (it is enough that no two of them
    are the same to [===]), the identity that a successful login
    establishes resolves to the very record that the login matched:
    the cart requests of the session act on the user's own record, and
    resolve it without a write. *)
Theorem login_then_resolves (now : N) (body : json) (w : world) (u : UserRecord) :
  missing body ["email"; "password"] = false ->
  find (credentials_match body) (stored w) = Some u ->
  emails_distinct (stored w) ->
  login None body w
  = (Ok (res_json 200 (JObj [("ok", JBool true); ("user", json_of_user u)])), w) /\
  exists i : nat,
    getOrCreateUserRecord now (Some (local_identity u)) w
    = (Ok {| user := Some u; users := stored w; index := Z.of_nat i |}, w).
Proof.
  intros Hm Hf Huq.
  pose proof (find_some _ _ Hf) as [Hin Hc].
  assert (Hw : ensured w = w).
  { apply ensured_nonempty. intros E. rewrite E in Hin. destruct Hin. }
  split; [now rewrite login_eval, Hm, Hf, Hw |].
  apply andb_prop in Hc as [Hc _].
  assert (Ht : truthy (email u) = true).
  { rewrite (strict_eq_truthy _ _ Hc). rewrite missing_login in Hm.
    apply orb_false_elim in Hm as [Hm _]. now apply negb_false_iff in Hm. }
  assert (Hrefl : strict_eq (email u) (email u) = true)
    by (rewrite (strict_eq_eq _ _ Hc) at 2; exact Hc).
  destruct (first_match_exists (by_email (email u)) (stored w)
              (ex_intro _ u (conj Hin Hrefl))) as [i Hfm].
  exists i.
  assert (Hl : lookup_in (Some (local_identity u)) (stored w) = Z.of_nat i).
  { apply lookup_in_by_email; rewrite (local_identity_email u Ht); assumption. }
  rewrite (getOrCreate_found now _ w i Hl), Hw.
  destruct Hfm as [[v [Hv Hpv]] _]. rewrite Hv.
  apply list_elem_of_In, list_elem_of_lookup_1 in Hin as [j Hj].
  assert (E : j = i).
  { apply (Huq j i u v Hj Hv Ht). rewrite strict_eq_sym. exact Hpv. }
  subst j. rewrite Hj in Hv. now injection Hv as ->.
Qed.

(** * The theorems at concrete requests

    Each lemma applies one theorem to the three-user store and checks its
    hypotheses there by computation. *)

Lemma checkout_empty_cart_witness :
  truthy as_alice = true /\
  cart_empty alice = true /\
  checkout 1700000000000%N as_alice three_users
  = (Ok (failure 400 "Giỏ hàng trống"), three_users).
Proof.
  split; [reflexivity |]. split; [reflexivity |].
  exact (proj1 (checkout_empty_cart 1700000000000%N as_alice three_users
                  {| user := Some alice; users := [alice; bob; gina]; index := 0 |}
                  three_users alice eq_refl eq_refl eq_refl eq_refl)).
Defined.

Lemma logout_clears_cookie_witness :
  logout_error destroy_fails = None /\
  cookie_cleared "connect.sid" (Part000.logout None destroy_fails) = true /\
  status_of (Part000.logout None destroy_fails) = Some 500.
Proof.
  split; [reflexivity |].
  destruct (logout_clears_cookie None destroy_fails eq_refl) as [Hc [H500 _]].
  split; [exact Hc |]. apply H500; [reflexivity | discriminate].
Defined.

Lemma unique_emails_three_users : unique_emails (stored three_users).
Proof.
  intros i j u v Hi Hj _ He.
  destruct i as [|[|[|i]]]; destruct j as [|[|[|j]]]; simpl in Hi, Hj;
    try reflexivity; try discriminate;
    injection Hi as <-; injection Hj as <-; discriminate He.
Defined.

Lemma emails_distinct_three_users : emails_distinct (stored three_users).
Proof. exact (unique_emails_distinct _ unique_emails_three_users). Defined.


Lemma register_existing_email_witness :
  (exists u, In u (stored three_users) /\
             email u = get (Some alice_signs_up_again) "email") /\
  primitive (get (Some alice_signs_up_again) "email") = true /\
  register None 1700000000999%N alice_signs_up_again three_users
  = (Ok (failure 409 "Email đã tồn tại"), three_users).
Proof.
  assert (H : exists u, In u (stored three_users) /\
                        email u = get (Some alice_signs_up_again) "email")
    by (exists alice; split; [left; reflexivity | reflexivity]).
  split; [exact H |]. split; [reflexivity |].
  destruct (register_existing_email None 1700000000999%N alice_signs_up_again
              three_users H eq_refl) as [resp [E [H409 _]]].
  rewrite E. now rewrite (H409 eq_refl).
Defined.

Lemma getOrCreateUserRecord_resolves_witness :
  truthy alice_at_google = true /\
  identity_email (profile_of alice_at_google) = jstr "alice@example.com" /\
  (exists r w',
      getOrCreateUserRecord 1700000000999%N alice_at_google three_users = (Ok r, w') /\
      stored w' = users r /\
      user r = Some alice /\
      index r = 0) /\
  truthy facebook_77 = true /\
  (exists r w',
      getOrCreateUserRecord 1700000000999%N facebook_77 three_users = (Ok r, w') /\
      stored w' = users r /\
      user r = Some {| id := jstr "77"; name := jstr "User"; email := jstr "";
                       password := jstr ""; cart := Some (JArr []) |} /\
      index r = 3).
Proof.
  split; [reflexivity |]. split; [reflexivity |]. split.
  - destruct (getOrCreateUserRecord_resolves 1700000000999%N alice_at_google three_users
                eq_refl) as [r [w' [H [Hs _]]]].
    exists r, w'. split; [exact H |]. split; [exact Hs |].
    vm_compute in H. injection H as <- _. split; reflexivity.
  - split; [reflexivity |].
    destruct (getOrCreateUserRecord_resolves 1700000000999%N facebook_77 three_users
                eq_refl) as [r [w' [H [Hs _]]]].
    exists r, w'. split; [exact H |]. split; [exact Hs |].
    vm_compute in H. injection H as <- _. split; reflexivity.
Defined.



Lemma postCart_coerces_non_array_witness :
  truthy as_bob = true /\
  cart bob = Some (JArr one_item) /\
  Parsed.isArray (Parsed.get (Some cart_is_a_string) "cart") = false /\
  exists resp w',
    postCart 1700000000999%N as_bob cart_is_a_string three_users = (Ok resp, w') /\
    status resp = 200 /\
    get (Some (payload resp)) "cart" = Some (JArr []) /\
    at_index (stored w') 1
    = Some {| id := jstr "1700000000123"; name := jstr "Bob";
              email := jstr "bob@example.com"; password := jstr "hunter2";
              cart := Some (JArr []) |}.
Proof.
  split; [reflexivity |]. split; [reflexivity |]. split; [reflexivity |].
  destruct (postCart_coerces_non_array 1700000000999%N as_bob cart_is_a_string
              three_users eq_refl)
    as [r [w1 [u [resp [w' [u' [Hg [Hu [Hp [Hst [_ [Hat [_ [_ [Hna _]]]]]]]]]]]]]]].
  exists resp, w'. split; [exact Hp |]. split; [exact Hst |].
  destruct (Hna eq_refl) as [_ [Hu' Hcart]]. split; [exact Hcart |].
  vm_compute in Hg. injection Hg as <- _. injection Hu as <-.
  cbn [index] in Hat. rewrite Hat, Hu'. reflexivity.
Defined.

Lemma login_never_matches_empty_password_witness :
  In gina (stored three_users) /\
  password gina = jstr "" /\
  exists resp w',
    login None guess_gina three_users = (Ok resp, w') /\ status resp = 401.
Proof.
  assert (Hin : In gina (stored three_users)) by (right; right; left; reflexivity).
  split; [exact Hin |]. split; [reflexivity |].
  destruct (login_never_matches_empty_password None guess_gina three_users gina
              Hin eq_refl) as [resp [w' [H [_ [_ [_ H401]]]]]].
  exists resp, w'. split; [exact H |].
  exact (H401 eq_refl eq_refl eq_refl emails_distinct_three_users).
Defined.

Lemma register_new_email_witness :
  missing carol_signs_up ["name"; "email"; "password"] = false /\
  exists resp w',
    register None 1700000000999%N carol_signs_up three_users = (Ok resp, w') /\
    stored w' = [alice; bob; gina; newUser 1700000000999%N carol_signs_up] /\
    status resp = 200.
Proof.
  split; [reflexivity |].
  assert (Hno : forall u, In u (stored three_users) ->
                          strict_eq (email u) (get (Some carol_signs_up) "email") = false).
  { intros u [<- | [<- | [<- | []]]]; reflexivity. }
  destruct (register_new_email None 1700000000999%N carol_signs_up three_users
              eq_refl Hno) as [resp [w' [H [Hs [_ [_ [H200 _]]]]]]].
  exists resp, w'. split; [exact H |]. split; [exact Hs |]. exact (proj1 (H200 eq_refl)).
Defined.

Lemma cart_routes_need_session_witness :
  truthy None = false /\
  checkout 1700000000999%N None three_users
  = (Ok (failure 401 "Chưa đăng nhập"), three_users).
Proof.
  split; [reflexivity |].
  exact (proj2 (proj2 (cart_routes_need_session 1700000000999%N None alice_fills_cart
                         three_users eq_refl))).
Defined.

Lemma requests_keep_accounts_witness :
  stored three_users !! 1%nat = Some bob /\
  exists u',
    stored (run [(1700000000999%N, Checkout as_bob);
                 (1700000001500%N, CartReplace as_alice alice_fills_cart);
                 (1700000002000%N, Register None carol_signs_up)] three_users) !! 1%nat
    = Some u' /\
    same_account bob u'.
Proof.
  split; [reflexivity |].
  exact (requests_keep_accounts
           [(1700000000999%N, Checkout as_bob);
            (1700000001500%N, CartReplace as_alice alice_fills_cart);
            (1700000002000%N, Register None carol_signs_up)]
           three_users 1%nat bob eq_refl).
Defined.

Lemma resolution_ignores_provider_witness :
  getOrCreateUserRecord 1700000000999%N gina_at_google three_users
  = getOrCreateUserRecord 1700000000999%N gina_at_discord three_users.
Proof.
  exact (resolution_ignores_provider 1700000000999%N "google" "discord"
           (jstr "ya29.token") None (jstr "d1sc0rd") (jstr "r3fresh")
           (Some (JObj [("id", JStr "42"); ("displayName", JStr "Gina");
                        ("emails", JArr [JObj [("value", JStr "gina@example.com")]])]))
           three_users eq_refl).
Defined.

Lemma getOrCreate_again_witness :
  truthy google_42 = true /\
  keyed google_42 = true /\
  exists r w1,
    getOrCreateUserRecord 1700000000999%N google_42 no_users = (Ok r, w1) /\
    writes w1 = 1%nat /\
    getOrCreateUserRecord 1700000001500%N google_42 w1 = (Ok r, w1).
Proof.
  split; [reflexivity |]. split; [reflexivity |].
  destruct (getOrCreateUserRecord 1700000000999%N google_42 no_users) as [[r|e] w1] eqn:E;
    [| vm_compute in E; discriminate E].
  exists r, w1. split; [reflexivity |]. split.
  - pose proof E as E'. vm_compute in E'. injection E' as _ <-. reflexivity.
  - exact (getOrCreate_again 1700000000999%N 1700000001500%N google_42 no_users r w1
             eq_refl eq_refl E).
Defined.

Lemma getOrCreate_of_nothing_witness :
  nullish None = true /\
  getOrCreateUserRecord 1700000000999%N None three_users
  = (Throw "TypeError", three_users).
Proof.
  split; [reflexivity |].
  exact (proj1 (getOrCreate_of_nothing 1700000000999%N None three_users eq_refl)).
Defined.

Lemma me_shows_resolution_email_witness :
  truthy alice_at_google = true /\
  exists info,
    me alice_at_google
    = Responded (res_json 200 (JObj [("loggedIn", JBool true); ("user", JObj info)])) /\
    assoc "email" info = jstr "alice@example.com".
Proof.
  split; [reflexivity |].
  destruct (me_shows_resolution_email alice_at_google eq_refl eq_refl)
    as [info [E [_ He]]].
  exists info. split; [exact E | exact He].
Defined.

Lemma me_needs_profile_witness :
  truthy bare_user = true /\
  nullish (get bare_user "profile") = true /\
  me bare_user = Next "TypeError" /\
  exists resp w',
    getCart 1700000000999%N bare_user three_users = (Ok resp, w') /\ status resp = 200.
Proof.
  split; [reflexivity |]. split; [reflexivity |].
  exact (me_needs_profile 1700000000999%N bare_user three_users eq_refl eq_refl).
Defined.

Lemma no_carol_yet :
  forall u, In u (stored three_users) ->
            strict_eq (email u) (get (Some carol_signs_up) "email") = false.
Proof. intros u [<- | [<- | [<- | []]]]; reflexivity. Defined.

Lemma register_then_resolves_witness :
  missing carol_signs_up ["name"; "email"; "password"] = false /\
  primitive (get (Some carol_signs_up) "email") = true /\
  getOrCreateUserRecord 1700000001500%N
    (Some (local_identity (newUser 1700000000999%N carol_signs_up)))
    (snd (register None 1700000000999%N carol_signs_up three_users))
  = (Ok {| user := Some (newUser 1700000000999%N carol_signs_up);
           users := [alice; bob; gina; newUser 1700000000999%N carol_signs_up];
           index := 3 |},
     snd (register None 1700000000999%N carol_signs_up three_users)).
Proof.
  split; [reflexivity |]. split; [reflexivity |].
  exact (proj1 (register_then_resolves None 1700000000999%N 1700000001500%N
                  carol_signs_up three_users eq_refl no_carol_yet eq_refl)).
Defined.

Lemma register_session_error_keeps_record_witness :
  missing carol_signs_up ["name"; "email"; "password"] = false /\
  exists resp w',
    register (Some "session store is down") 1700000000999%N carol_signs_up three_users
    = (Ok resp, w') /\
    status resp = 500 /\
    register None 1700000001500%N carol_signs_up w'
    = (Ok (failure 409 "Email đã tồn tại"), w').
Proof.
  split; [reflexivity |].
  exact (register_session_error_keeps_record "session store is down" None
           1700000000999%N 1700000001500%N carol_signs_up three_users
           eq_refl no_carol_yet eq_refl).
Defined.

Lemma same_email_same_cart_witness :
  truthy as_alice = true /\
  truthy alice_at_google = true /\
  email_of (profile_of as_alice) = email_of (profile_of alice_at_google) /\
  email_of (profile_of as_alice) = jstr "alice@example.com" /\
  email alice = email_of (profile_of as_alice) /\
  exists w1,
    postCart 1700000000999%N as_alice alice_fills_cart three_users
    = (Ok (res_json 200 (JObj [("ok", JBool true); ("cart", JArr one_item)])), w1) /\
    getCart 1700000001500%N alice_at_google w1
    = (Ok (res_json 200 (JObj [("ok", JBool true); ("cart", JArr one_item)])), w1).
Proof.
  split; [reflexivity |]. split; [reflexivity |]. split; [reflexivity |].
  split; [reflexivity |]. split; [reflexivity |].
  exact (same_email_same_cart 1700000000999%N 1700000001500%N as_alice alice_at_google
           alice_fills_cart one_item_sent three_users eq_refl eq_refl eq_refl eq_refl
           eq_refl (ex_intro _ alice (conj (or_introl eq_refl) eq_refl)) eq_refl).
Defined.

Lemma checkout_twice_witness :
  truthy as_bob = true /\
  cart bob = Some (JArr one_item) /\
  exists resp w',
    checkout 1700000000999%N as_bob three_users = (Ok resp, w') /\
    status resp = 200 /\
    checkout 1700000001500%N as_bob w' = (Ok (failure 400 "Giỏ hàng trống"), w').
Proof.
  split; [reflexivity |]. split; [reflexivity |].
  destruct (checkout_twice 1700000000999%N as_bob three_users
              {| user := Some bob; users := [alice; bob; gina]; index := 1 |}
              three_users bob _ _ eq_refl eq_refl eq_refl eq_refl)
    as [resp [w' [H [Hs Hagain]]]].
  exists resp, w'. split; [exact H |]. split; [exact Hs |]. apply Hagain.
Defined.

Lemma login_then_resolves_witness :
  find (credentials_match alice_credentials) (stored three_users) = Some alice /\
  emails_distinct (stored three_users) /\
  exists i : nat,
    getOrCreateUserRecord 1700000000999%N as_alice three_users
    = (Ok {| user := Some alice; users := [alice; bob; gina]; index := Z.of_nat i |},
       three_users).
Proof.
  split; [reflexivity |]. split; [exact emails_distinct_three_users |].
  exact (proj2 (login_then_resolves 1700000000999%N alice_credentials three_users alice
                  eq_refl eq_refl emails_distinct_three_users)).
Defined.
